(** * Motion Blinds BLE communication: codec, command builder, session

    A shallow embedding of
    [esphome/components/motion_blinds/motion_blinds_communication.cpp].

    - [Codec]      : [format_hex_num] and the hexadecimal rendering it uses;
    - [Builder]    : [make_raw_command], [append_time_string],
                     [append_set_time_string], [format_week_day];
    - [Comm]       : the session record, [connect], [disconnect],
                     [send_command], [send_set_time_] and
                     [gattc_event_handler], with the calls into the BLE
                     client, the cipher and the two callbacks recorded as a
                     trace of effects. *)

From Stdlib Require Import ZArith String Ascii List Bool Lia.
From Stdlib Require Import Strings.Byte.
Import ListNotations.

Local Open Scope string_scope.
Local Open Scope Z_scope.

(* ------------------------------------------------------------------ *)
(** ** Codec *)

Module Codec.

(** One digit of [std::hex] output (lower case: the stream has no
    [std::uppercase]); only ever asked for a digit value, 0 to 15. *)
Definition hex_digit (d : Z) : ascii :=
  match d with
  | 0 => "0" | 1 => "1" | 2 => "2" | 3 => "3"
  | 4 => "4" | 5 => "5" | 6 => "6" | 7 => "7"
  | 8 => "8" | 9 => "9" | 10 => "a" | 11 => "b"
  | 12 => "c" | 13 => "d" | 14 => "e" | _ => "f"
  end%char.

(** [stream << std::hex << value]: the digits of [value] in base 16, most
    significant first, no padding.  [fuel] bounds the number of digits. *)
Fixpoint hex_digits (fuel : nat) (value : Z) : string :=
  match fuel with
  | O => EmptyString
  | S k =>
      if value <? 16 then String (hex_digit value) EmptyString
      else hex_digits k (value / 16) ++ String (hex_digit (value mod 16)) EmptyString
  end.

Definition to_hex (value : Z) : string :=
  hex_digits (S (Z.to_nat (Z.log2 value))) value.

(** [size_t] on the ESP32 is 32 bits wide; converting an [int] to it wraps. *)
Definition SIZE_WIDTH : Z := 32.
Definition to_size_t (x : Z) : Z := x mod 2 ^ SIZE_WIDTH.

(** [MotionBlindsCommunication::format_hex_num(size_t value, bool prefix)]. *)
Definition format_hex_num (value : Z) (prefix : bool) : string :=
  let str1 := to_hex value in
  let length := String.length str1 in
  if ((length =? 1)%nat && negb prefix) || (length =? 3)%nat then
    String "0" str1
  else if negb (length =? 1)%nat then
    if (length =? 2)%nat then
      if prefix then "00" ++ str1 else str1
    else str1
  else "000" ++ str1.

(** Reading hexadecimal text back as an integer, for the round-trip law of
    section 8 of the spec; the source has no parser of its own.  Digits of
    either case are accepted, anything else and the empty string are
    refused. *)
Definition hex_value (c : ascii) : option Z :=
  let code := Z.of_N (N_of_ascii c) in
  if (48 <=? code) && (code <=? 57) then Some (code - 48)         (* 0-9 *)
  else if (97 <=? code) && (code <=? 102) then Some (code - 87)   (* a-f *)
  else if (65 <=? code) && (code <=? 70) then Some (code - 55)    (* A-F *)
  else None.

Fixpoint parse_hex_from (acc : Z) (s : string) : option Z :=
  match s with
  | EmptyString => Some acc
  | String c rest =>
      match hex_value c with
      | Some d => parse_hex_from (16 * acc + d) rest
      | None => None
      end
  end.

Definition parse_hex (s : string) : option Z :=
  match s with
  | EmptyString => None
  | _ => parse_hex_from 0 s
  end.

(** Every character is a hexadecimal digit. *)
Fixpoint all_hex (s : string) : bool :=
  match s with
  | EmptyString => true
  | String c rest =>
      match hex_value c with Some _ => all_hex rest | None => false end
  end.

(** The fixed-width renderings the device reads: one byte as two digits, two
    bytes as four. *)
Definition hex_byte (v : Z) : string :=
  String (hex_digit (v / 16)) (String (hex_digit (v mod 16)) EmptyString).

Definition hex_word (v : Z) : string :=
  hex_byte (v / 256) ++ hex_byte (v mod 256).

End Codec.

Import Codec.

(* ------------------------------------------------------------------ *)
(** ** Command builder *)

Module Builder.

(** Modelled from the spec: [time::ESPTime] is declared in the time
    component, outside this file; these are the fields the builder reads
    (section 6, Clock Provider).  [day_of_week] counts from Sunday = 1. *)
Record ESPTime : Type := {
  year : Z;
  month : Z;
  day_of_month : Z;
  hour : Z;
  minute : Z;
  second : Z;
  day_of_week : Z
}.

(** The fields as the clock hands them over: [year] in sixteen bits, the
    others in one byte each. *)
Definition ESPTime_in_range (local : ESPTime) : Prop :=
  0 <= year local < 65536 /\
  0 <= month local < 256 /\
  0 <= day_of_month local < 256 /\
  0 <= hour local < 256 /\
  0 <= minute local < 256 /\
  0 <= second local < 256 /\
  0 <= day_of_week local < 256.

(** [append_time_string]: what the function writes to [buffer].  [tv_usec]
    is the microsecond part that [gettimeofday] returns. *)
Definition append_time_string (tv_usec : Z) (local : ESPTime) : string :=
  let year := format_hex_num (to_size_t (Z.rem (year local) 100)) false in
  let month := format_hex_num (month local) false in
  let day := format_hex_num (day_of_month local) false in
  let hour := format_hex_num (hour local) false in
  let minute := format_hex_num (minute local) false in
  let seconds := format_hex_num (second local) false in
  let milliseconds := format_hex_num (to_size_t (Z.quot tv_usec 1000)) true in
  year ++ month ++ day ++ hour ++ minute ++ seconds ++ milliseconds.

(** [make_raw_command]. *)
Definition make_raw_command (tv_usec : Z) (command : string) (local : ESPTime) : string :=
  command ++ append_time_string tv_usec local.

(** [format_week_day(int day)]. *)
Definition format_week_day (day : Z) : string :=
  format_hex_num (to_size_t (day - 1)) false.

(** [append_set_time_string]: what the function writes to [buffer]. *)
Definition append_set_time_string (local : ESPTime) : string :=
  let year := format_hex_num (to_size_t (Z.rem (year local) 100)) false in
  let week_day := format_week_day (day_of_week local) in
  let hour := format_hex_num (hour local) false in
  let minute := format_hex_num (minute local) false in
  let seconds := format_hex_num (second local) false in
  let month := format_hex_num (month local) false in
  let day := format_hex_num (day_of_month local) false in
  week_day ++ hour ++ minute ++ seconds ++ year ++ month ++ day.

End Builder.

Import Builder.

(* ------------------------------------------------------------------ *)
(** ** Session and protocol state machine *)

Module Comm.

Definition WANTED_MTU : Z := 512.
Definition COMMAND_USER_QUERY : string := "02C005".
Definition COMMAND_SET_USER_KEY : string := "02C001".
Definition COMMAND_SET_TIME : string := "09A001".
Definition NOTIFY_MESSAGE_PHONE_USER : string := "0cc0060505".

(** [ESP_GATT_CHAR_PROP_BIT_NOTIFY] of the ESP-IDF headers: bit 4. *)
Definition ESP_GATT_CHAR_PROP_BIT_NOTIFY : Z := 16.

(** [espbt::ClientState]: the two enumerators this file assigns; the enum's
    other values are not told apart here. *)
Inductive ClientState : Type :=
| IDLE
| ESTABLISHED
| OtherClientState (tag : nat).

(** [std::string::find(pattern)] from position 0; [None] is [npos]. *)
Fixpoint find_from (pos : nat) (s pattern : string) : option nat :=
  if String.prefix pattern s then Some pos
  else match s with
       | EmptyString => None
       | String _ rest => find_from (S pos) rest pattern
       end.

Definition find (s pattern : string) : option nat := find_from 0 s pattern.

Definition found_at_0 (r : option nat) : bool :=
  match r with Some O => true | _ => false end.

(** The vendor cipher of [crypto.h], which is not part of this file: taken
    as an interface. *)
Class Crypto : Type := {
  encrypt : string -> list byte;
  decrypt : list byte -> string
}.

(** The [message_] member: plaintext command, cipher text and its length. *)
Module Message.
Record t : Type := {
  raw_command : string;
  bytes : list byte;
  length : Z
}.
Definition empty : t := {| raw_command := ""; bytes := []; length := 0 |}.
End Message.

(** The members of [MotionBlindsCommunication] the protocol works on. *)
Record Session : Type := {
  node_state : ClientState;
  write_char_handle_ : Z;
  notify_char_handle_ : Z;
  has_mtu_change_ : bool;
  message_ : Message.t
}.

(** The constructor's initialiser list; [message_] is default-constructed.
    Modelled from the spec: [node_state] belongs to the base class declared
    elsewhere and starts as [Idle] (section 4.3). *)
Definition initial : Session := {|
  node_state := IDLE;
  write_char_handle_ := 0;
  notify_char_handle_ := 0;
  has_mtu_change_ := false;
  message_ := Message.empty
|}.

Definition set_node_state (v : ClientState) (s : Session) : Session :=
  {| node_state := v; write_char_handle_ := write_char_handle_ s;
     notify_char_handle_ := notify_char_handle_ s;
     has_mtu_change_ := has_mtu_change_ s; message_ := message_ s |}.

Definition set_write_char_handle_ (v : Z) (s : Session) : Session :=
  {| node_state := node_state s; write_char_handle_ := v;
     notify_char_handle_ := notify_char_handle_ s;
     has_mtu_change_ := has_mtu_change_ s; message_ := message_ s |}.

Definition set_notify_char_handle_ (v : Z) (s : Session) : Session :=
  {| node_state := node_state s; write_char_handle_ := write_char_handle_ s;
     notify_char_handle_ := v;
     has_mtu_change_ := has_mtu_change_ s; message_ := message_ s |}.

Definition set_has_mtu_change_ (v : bool) (s : Session) : Session :=
  {| node_state := node_state s; write_char_handle_ := write_char_handle_ s;
     notify_char_handle_ := notify_char_handle_ s;
     has_mtu_change_ := v; message_ := message_ s |}.

Definition set_message_ (v : Message.t) (s : Session) : Session :=
  {| node_state := node_state s; write_char_handle_ := write_char_handle_ s;
     notify_char_handle_ := notify_char_handle_ s;
     has_mtu_change_ := has_mtu_change_ s; message_ := v |}.

(** A characteristic as [get_characteristic] returns it: its handle, its
    property bits and the handle of its notify descriptor, if it has one. *)
Record Characteristic : Type := {
  handle : Z;
  properties : Z;
  notify_descriptor : option Z
}.

(** What the collaborators answer while one callback runs: the BLE client
    ([parent_]), the clock ([time_]) and [gettimeofday]. *)
Record Env : Type := {
  parent_connected : bool;
  notify_chara : option Characteristic;
  write_chara : option Characteristic;
  time_now : nat -> ESPTime;   (* the n-th call of [time_->now()] *)
  tv_usec : Z
}.

(** Calls that leave the object, in program order. *)
Inductive Effect : Type :=
| parent_connect
| parent_disconnect
| Crypto_encrypt (raw : string)
| Crypto_decrypt (data : list byte)
| esp_ble_gattc_write_char (handle : Z) (length : Z) (value : list byte)
| esp_ble_gattc_register_for_notify (handle : Z)
| esp_ble_gattc_write_char_descr (handle : Z) (value : list byte)
| esp_ble_gatt_set_local_mtu (mtu : Z)
| esp_ble_gattc_send_mtu_req
| on_notify (value : string)
| on_disconnected.

(** The events [gattc_event_handler] switches on, each with the fields of
    [param] the handler reads. *)
Inductive Event : Type :=
| ESP_GATTC_OPEN_EVT
| ESP_GATTC_DISCONNECT_EVT (reason : Z)
| ESP_GATTC_SEARCH_CMPL_EVT
| ESP_GATTC_REG_FOR_NOTIFY_EVT
| ESP_GATTC_NOTIFY_EVT (handle : Z) (value : list byte)
| ESP_GATTC_CFG_MTU_EVT (mtu : Z)
| ESP_GATTC_WRITE_CHAR_EVT
| ESP_GATTC_OTHER_EVT (code : nat).

(** A piece of a member function: it may change the session and call out;
    [None] is a null pointer dereferenced. *)
Definition Action : Type := Session -> option (Session * list Effect).

Definition skip : Action := fun s => Some (s, []).
Definition call (e : Effect) : Action := fun s => Some (s, [e]).
Definition update (f : Session -> Session) : Action := fun s => Some (f s, []).
Definition null_dereference : Action := fun _ => None.

Definition seq (a b : Action) : Action := fun s =>
  match a s with
  | Some (s1, t1) =>
      match b s1 with
      | Some (s2, t2) => Some (s2, (t1 ++ t2)%list)
      | None => None
      end
  | None => None
  end.

Declare Scope action_scope.
Delimit Scope action_scope with action.
Bind Scope action_scope with Action.
Notation "a ;; b" := (seq a b) (at level 61, right associativity) : action_scope.
Local Open Scope action_scope.

(** Branch on the current session. *)
Definition read {A : Type} (f : Session -> A) (k : A -> Action) : Action :=
  fun s => k (f s) s.

Section WithCrypto.
Context {crypto : Crypto}.

(** [MotionBlindsCommunication::connect]. *)
Definition connect (env : Env) : Action :=
  if parent_connected env then skip else call parent_connect.

(** [MotionBlindsCommunication::disconnect]. *)
Definition disconnect : Action :=
  call parent_disconnect ;; update (set_node_state IDLE).

(** [MotionBlindsCommunication::send_command]; [local] is what
    [time_->now()] returns to it. *)
Definition send_command (local : ESPTime) (usec : Z) (command : string) : Action :=
  let raw_command := make_raw_command usec command local in
  let cipher := encrypt raw_command in
  call (Crypto_encrypt raw_command) ;;
  call (Crypto_decrypt cipher) ;;
  update (set_message_ {| Message.raw_command := command;
                          Message.bytes := cipher;
                          Message.length := Z.of_nat (List.length cipher) |}) ;;
  read write_char_handle_ (fun h =>
    call (esp_ble_gattc_write_char h (Z.of_nat (List.length cipher)) cipher)).

(** The [buffer] that [send_set_time_] fills: the opcode, then the fields
    of [append_set_time_string]. *)
Definition set_time_buffer (local : ESPTime) : string :=
  COMMAND_SET_TIME ++ append_set_time_string local.

(** [MotionBlindsCommunication::send_set_time_]: the first reading of the
    clock goes into the command, [send_command] takes the second. *)
Definition send_set_time_ (env : Env) : Action :=
  let buffer := set_time_buffer (time_now env 0%nat) in
  send_command (time_now env 1%nat) (tv_usec env) buffer.

(** [decode_value]. *)
Definition decode_value (data : list byte) : string := decrypt data.

(** The [ESP_GATTC_SEARCH_CMPL_EVT] case, first half: the notify
    characteristic. *)
Definition search_notify_chara (env : Env) : Action :=
  match notify_chara env with
  | Some chara =>
      update (set_notify_char_handle_ (handle chara)) ;;
      call (esp_ble_gattc_register_for_notify (handle chara)) ;;
      match notify_descriptor chara with
      | Some descr => call (esp_ble_gattc_write_char_descr descr [x01; x00]%byte)
      | None => null_dereference
      end
  | None => skip
  end.

(** Second half: the write characteristic. *)
Definition search_write_chara (env : Env) : Action :=
  match write_chara env with
  | Some chara =>
      update (set_write_char_handle_ (handle chara)) ;;
      if negb (Z.land (properties chara) ESP_GATT_CHAR_PROP_BIT_NOTIFY =? 0)
      then call (esp_ble_gattc_register_for_notify (handle chara))
      else skip
  | None => skip
  end.

(** [MotionBlindsCommunication::gattc_event_handler]. *)
Definition gattc_event_handler (env : Env) (event : Event) : Action :=
  match event with
  | ESP_GATTC_OPEN_EVT => skip
  | ESP_GATTC_DISCONNECT_EVT _ =>
      update (set_has_mtu_change_ false) ;;
      update (set_node_state IDLE) ;;
      update (set_write_char_handle_ 0) ;;
      call on_disconnected
  | ESP_GATTC_SEARCH_CMPL_EVT =>
      search_notify_chara env ;; search_write_chara env
  | ESP_GATTC_REG_FOR_NOTIFY_EVT =>
      read has_mtu_change_ (fun mtu_done =>
        if mtu_done then
          send_command (time_now env 0%nat) (tv_usec env) COMMAND_USER_QUERY
        else
          call (esp_ble_gatt_set_local_mtu WANTED_MTU) ;;
          call esp_ble_gattc_send_mtu_req)
  | ESP_GATTC_NOTIFY_EVT h data =>
      read notify_char_handle_ (fun notify_handle =>
        if negb (h =? notify_handle) then skip
        else
          let value := decode_value data in
          call (Crypto_decrypt data) ;;
          if found_at_0 (find value NOTIFY_MESSAGE_PHONE_USER) then
            send_command (time_now env 0%nat) (tv_usec env) COMMAND_SET_USER_KEY
          else
            call (on_notify value))
  | ESP_GATTC_CFG_MTU_EVT mtu =>
      if mtu =? WANTED_MTU then
        update (set_has_mtu_change_ true) ;;
        read write_char_handle_ (fun h =>
          if negb (h =? 0) then
            send_command (time_now env 0%nat) (tv_usec env) COMMAND_USER_QUERY
          else skip)
      else skip
  | ESP_GATTC_WRITE_CHAR_EVT =>
      read message_ (fun m =>
        if String.eqb (Message.raw_command m) COMMAND_SET_USER_KEY then
          send_set_time_ env
        else if found_at_0 (find (Message.raw_command m) COMMAND_SET_TIME) then
          update (set_node_state ESTABLISHED)
        else skip)
  | ESP_GATTC_OTHER_EVT _ => skip
  end.

(** The handler run over a sequence of events, each with what the
    collaborators answer during it; the traces are concatenated. *)
Fixpoint run (steps : list (Env * Event)) : Action :=
  match steps with
  | [] => skip
  | (env, event) :: rest => gattc_event_handler env event ;; run rest
  end.

End WithCrypto.

End Comm.

Import Comm.
Local Open Scope action_scope.

(* ------------------------------------------------------------------ *)
(** ** Outstanding writes *)

Module Monitor.

(** The reading of "one write in flight at a time" (spec, section 3) that
    the machine is compared with: a characteristic write becomes pending
    when [esp_ble_gattc_write_char] is called and stops being pending when
    an [ESP_GATTC_WRITE_CHAR_EVT] arrives. *)
Definition is_write (e : Effect) : bool :=
  match e with
  | esp_ble_gattc_write_char _ _ _ => true
  | _ => false
  end.

Definition writes_issued (trace : list Effect) : nat :=
  List.length (filter is_write trace).

(** Go through the calls of one callback with [pending] writes not yet
    acknowledged; [None] when a write is issued while another is pending. *)
Fixpoint issue (pending : nat) (trace : list Effect) : option nat :=
  match trace with
  | [] => Some pending
  | e :: rest =>
      if is_write e then
        if (pending =? 0)%nat then issue 1%nat rest else None
      else issue pending rest
  end.

Definition acknowledge (event : Event) (pending : nat) : nat :=
  match event with
  | ESP_GATTC_WRITE_CHAR_EVT => Nat.pred pending
  | _ => pending
  end.

(** [true] when no write of the run is issued while another is pending. *)
Fixpoint single_outstanding {crypto : Crypto} (steps : list (Env * Event))
    (s : Session) (pending : nat) : bool :=
  match steps with
  | [] => true
  | (env, event) :: rest =>
      match gattc_event_handler env event s with
      | Some (s', trace) =>
          match issue (acknowledge event pending) trace with
          | Some pending' => single_outstanding rest s' pending'
          | None => false
          end
      | None => true
      end
  end.

End Monitor.

(* ------------------------------------------------------------------ *)
(** ** A cipher to run the machine with *)

Module Plain.

(** The text itself, byte for byte: enough to run the machine on concrete
    events, and [decrypt] inverts [encrypt] as the spec asks of the cipher. *)
Definition plain : Crypto := {|
  encrypt := list_byte_of_string;
  decrypt := string_of_list_byte
|}.

(** 2024-03-15 13:07:42, a Friday (Sunday = 1). *)
Definition mar15 : ESPTime := {|
  year := 2024; month := 3; day_of_month := 15;
  hour := 13; minute := 7; second := 42; day_of_week := 6
|}.

(** The same date with the weekday field set to 3. *)
Definition mar15_dow3 : ESPTime := {|
  year := 2024; month := 3; day_of_month := 15;
  hour := 13; minute := 7; second := 42; day_of_week := 3
|}.

Definition notify_c : Characteristic :=
  {| handle := 42; properties := 16; notify_descriptor := Some 43 |}.

Definition write_c : Characteristic :=
  {| handle := 40; properties := 8; notify_descriptor := None |}.

(** Both characteristics found, the clock at [mar15], 7 ms into the
    second. *)
Definition env0 : Env := {|
  parent_connected := true;
  notify_chara := Some notify_c;
  write_chara := Some write_c;
  time_now := fun _ => mar15;
  tv_usec := 7000
|}.

(** The session once discovery has found both characteristics. *)
Definition discovered : Session :=
  set_write_char_handle_ 40 (set_notify_char_handle_ 42 initial).

(** Cipher text of a phone-user prompt and of a telemetry frame. *)
Definition phone_user_prompt : list byte :=
  @encrypt plain "0cc006050501".

Definition telemetry : list byte :=
  @encrypt plain "07040102".

(** Discovery, subscription, MTU result, then a disconnect. *)
Definition until_disconnect : list (Env * Event) :=
  [(env0, ESP_GATTC_SEARCH_CMPL_EVT);
   (env0, ESP_GATTC_REG_FOR_NOTIFY_EVT);
   (env0, ESP_GATTC_CFG_MTU_EVT 512);
   (env0, ESP_GATTC_DISCONNECT_EVT 19)].

(** Discovery, subscription, MTU result, then the device's prompt before
    the user query has been acknowledged. *)
Definition prompt_before_ack : list (Env * Event) :=
  [(env0, ESP_GATTC_SEARCH_CMPL_EVT);
   (env0, ESP_GATTC_REG_FOR_NOTIFY_EVT);
   (env0, ESP_GATTC_CFG_MTU_EVT 512);
   (env0, ESP_GATTC_NOTIFY_EVT 42 phone_user_prompt)].

(** The whole handshake, every write acknowledged before the next event. *)
Definition handshake : list (Env * Event) :=
  [(env0, ESP_GATTC_SEARCH_CMPL_EVT);
   (env0, ESP_GATTC_REG_FOR_NOTIFY_EVT);
   (env0, ESP_GATTC_CFG_MTU_EVT 512);
   (env0, ESP_GATTC_WRITE_CHAR_EVT);
   (env0, ESP_GATTC_NOTIFY_EVT 42 phone_user_prompt);
   (env0, ESP_GATTC_WRITE_CHAR_EVT);
   (env0, ESP_GATTC_WRITE_CHAR_EVT)].

Definition run_plain : list (Env * Event) -> Action := @run plain.

(** The last-sent command and the state a run ends with. *)
Definition last_command (r : option (Session * list Effect)) : option string :=
  option_map (fun x => Message.raw_command (message_ (fst x))) r.

Definition final_state (r : option (Session * list Effect)) : option ClientState :=
  option_map (fun x => node_state (fst x)) r.

(** The plaintexts handed to the cipher for writing, in order. *)
Definition sent (r : option (Session * list Effect)) : list string :=
  match r with
  | Some (_, trace) =>
      flat_map (fun e => match e with
                         | esp_ble_gattc_write_char _ _ value => [@decrypt plain value]
                         | _ => []
                         end) trace
  | None => []
  end.

End Plain.

(* ------------------------------------------------------------------ *)
(** ** Observing runs *)

Module Observe.

Definition is_on_disconnected (e : Effect) : bool :=
  match e with
  | on_disconnected => true
  | _ => false
  end.

Definition is_disconnect_event (step : Env * Event) : bool :=
  match snd step with
  | ESP_GATTC_DISCONNECT_EVT _ => true
  | _ => false
  end.

(** A notification, on whatever handle, whose payload decrypts to the
    phone-user prompt. *)
Definition is_prompt_notification {crypto : Crypto} (step : Env * Event) : bool :=
  match snd step with
  | ESP_GATTC_NOTIFY_EVT _ data =>
      String.prefix NOTIFY_MESSAGE_PHONE_USER (decode_value data)
  | _ => false
  end.

(** The handshake has not gone beyond the user query: the session is not
    established and the last-sent command is none or the user query. *)
Definition before_prompt (s : Session) : Prop :=
  node_state s <> ESTABLISHED /\
  (Message.raw_command (message_ s) = "" \/
   Message.raw_command (message_ s) = COMMAND_USER_QUERY).

End Observe.

(* ================================================================== *)
(** * Properties *)

(** ** Hexadecimal rendering *)

Section HexFacts.

Lemma log2_div16 (v : Z) : 16 <= v -> Z.log2 (v / 16) = Z.log2 v - 4.
Proof.
  intros Hv.
  change 16 with (2 ^ 4). rewrite <- Z.shiftr_div_pow2 by lia.
  rewrite Z.log2_shiftr by lia.
  assert (Z.log2 (2 ^ 4) <= Z.log2 v) by (apply Z.log2_le_mono; exact Hv).
  rewrite Z.log2_pow2 in H by lia. lia.
Qed.

(** Any fuel above [log2 value] gives the same digits. *)
Lemma hex_digits_fuel (f1 : nat) :
  forall (f2 : nat) (v : Z),
    Z.log2 v < Z.of_nat f1 -> Z.log2 v < Z.of_nat f2 ->
    hex_digits f1 v = hex_digits f2 v.
Proof.
  induction f1 as [|k IH]; intros f2 v H1 H2.
  - pose proof (Z.log2_nonneg v). lia.
  - destruct f2 as [|k2].
    + pose proof (Z.log2_nonneg v). lia.
    + simpl. destruct (v <? 16) eqn:E; [reflexivity|].
      apply Z.ltb_ge in E.
      rewrite (IH k2 (v / 16)); [reflexivity| |];
        rewrite log2_div16 by exact E; lia.
Qed.

Lemma to_hex_digit (v : Z) : v < 16 -> to_hex v = String (hex_digit v) EmptyString.
Proof.
  intros Hv. unfold to_hex. simpl.
  apply Z.ltb_lt in Hv. rewrite Hv. reflexivity.
Qed.

Lemma to_hex_step (v : Z) :
  16 <= v -> to_hex v = to_hex (v / 16) ++ String (hex_digit (v mod 16)) EmptyString.
Proof.
  intros Hv. unfold to_hex at 1. simpl.
  apply Z.ltb_ge in Hv. rewrite Hv. apply Z.ltb_ge in Hv.
  f_equal. unfold to_hex. apply hex_digits_fuel.
  - rewrite log2_div16 by exact Hv.
    pose proof (Z.log2_nonneg v). lia.
  - pose proof (Z.log2_nonneg (v / 16)). lia.
Qed.

Lemma length_snoc (s : string) (c : ascii) :
  String.length (s ++ String c EmptyString) = S (String.length s).
Proof.
  induction s as [|a s IH]; simpl; [reflexivity | now rewrite IH].
Qed.

Lemma to_hex_length_1 (v : Z) : v < 16 -> String.length (to_hex v) = 1%nat.
Proof. intros H. now rewrite to_hex_digit. Qed.

Lemma to_hex_length_2 (v : Z) : 16 <= v < 256 -> String.length (to_hex v) = 2%nat.
Proof.
  intros H. rewrite to_hex_step, length_snoc by lia.
  rewrite to_hex_length_1; [reflexivity|].
  apply Z.div_lt_upper_bound; lia.
Qed.

Lemma to_hex_length_3 (v : Z) : 256 <= v < 4096 -> String.length (to_hex v) = 3%nat.
Proof.
  intros H. rewrite to_hex_step, length_snoc by lia.
  rewrite to_hex_length_2; [reflexivity|].
  split; [apply Z.div_le_lower_bound | apply Z.div_lt_upper_bound]; lia.
Qed.

Lemma to_hex_length_4 (v : Z) : 4096 <= v < 65536 -> String.length (to_hex v) = 4%nat.
Proof.
  intros H. rewrite to_hex_step, length_snoc by lia.
  rewrite to_hex_length_3; [reflexivity|].
  split; [apply Z.div_le_lower_bound | apply Z.div_lt_upper_bound]; lia.
Qed.

(** From five digits on the length is at least five. *)
Lemma to_hex_length_5 (v : Z) : 65536 <= v -> (5 <= String.length (to_hex v))%nat.
Proof.
  intros H. rewrite to_hex_step, length_snoc by lia.
  assert (4096 <= v / 16) by (apply Z.div_le_lower_bound; lia).
  destruct (Z_lt_ge_dec (v / 16) 65536) as [Hlt|Hge].
  - rewrite to_hex_length_4 by lia. lia.
  - rewrite to_hex_step, length_snoc by lia.
    assert (4096 <= v / 16 / 16) by (apply Z.div_le_lower_bound; lia).
    rewrite to_hex_step, length_snoc by lia.
    rewrite to_hex_step, length_snoc by (apply Z.div_le_lower_bound; lia).
    rewrite to_hex_step, length_snoc
      by (apply Z.div_le_lower_bound; [lia|]; apply Z.div_le_lower_bound; lia).
    lia.
Qed.

Lemma hex_value_hex_digit (d : Z) : 0 <= d < 16 -> hex_value (hex_digit d) = Some d.
Proof.
  intros H.
  assert (d = 0 \/ d = 1 \/ d = 2 \/ d = 3 \/ d = 4 \/ d = 5 \/ d = 6 \/ d = 7 \/
          d = 8 \/ d = 9 \/ d = 10 \/ d = 11 \/ d = 12 \/ d = 13 \/ d = 14 \/ d = 15)
    as Hd by lia.
  repeat (destruct Hd as [-> | Hd]; [reflexivity|]). subst d. reflexivity.
Qed.

Lemma parse_hex_from_snoc (s : string) :
  forall (acc : Z) (c : ascii) (d : Z),
    hex_value c = Some d ->
    parse_hex_from acc (s ++ String c EmptyString) =
    option_map (fun a => 16 * a + d) (parse_hex_from acc s).
Proof.
  induction s as [|a s IH]; intros acc c d Hc; simpl.
  - now rewrite Hc.
  - destruct (hex_value a); [now apply IH | reflexivity].
Qed.

Lemma parse_hex_from_to_hex_fuel (f : nat) :
  forall v : Z, 0 <= v -> Z.log2 v < Z.of_nat f ->
    parse_hex_from 0 (hex_digits f v) = Some v.
Proof.
  induction f as [|k IH]; intros v Hv Hf.
  - pose proof (Z.log2_nonneg v). lia.
  - simpl. destruct (v <? 16) eqn:E.
    + apply Z.ltb_lt in E. simpl.
      rewrite hex_value_hex_digit by lia. f_equal; lia.
    + apply Z.ltb_ge in E.
      rewrite (parse_hex_from_snoc _ _ _ (v mod 16)).
      * rewrite IH.
        -- cbn [option_map]. f_equal. pose proof (Z.div_mod v 16 ltac:(lia)). lia.
        -- apply Z.div_pos; lia.
        -- rewrite log2_div16 by exact E. lia.
      * apply hex_value_hex_digit. apply Z.mod_pos_bound. lia.
Qed.

Lemma parse_hex_from_to_hex (v : Z) : 0 <= v -> parse_hex_from 0 (to_hex v) = Some v.
Proof.
  intros Hv. unfold to_hex. apply parse_hex_from_to_hex_fuel; [exact Hv|].
  pose proof (Z.log2_nonneg v). lia.
Qed.

Lemma to_hex_nonempty (v : Z) : to_hex v <> EmptyString.
Proof.
  unfold to_hex. simpl. destruct (v <? 16); [discriminate|].
  destruct (hex_digits _ _); discriminate.
Qed.

Lemma parse_hex_nonempty (s : string) : s <> EmptyString -> parse_hex s = parse_hex_from 0 s.
Proof. destruct s; [congruence | reflexivity]. Qed.

(** [format_hex_num] only ever puts zeros in front of the digits. *)
Lemma format_hex_num_cases (v : Z) (prefix : bool) :
  format_hex_num v prefix = to_hex v \/
  format_hex_num v prefix = "0" ++ to_hex v \/
  format_hex_num v prefix = "00" ++ to_hex v \/
  format_hex_num v prefix = "000" ++ to_hex v.
Proof.
  unfold format_hex_num.
  destruct (String.length (to_hex v)) as [|[|[|[|n]]]]; destruct prefix; simpl; auto.
Qed.

End HexFacts.

(** ** [format_hex_num] *)

Section FormatHexNum.

Lemma format_hex_num_nonempty (v : Z) (prefix : bool) :
  format_hex_num v prefix <> EmptyString.
Proof.
  pose proof (to_hex_nonempty v) as Hne.
  destruct (format_hex_num_cases v prefix) as [H | [H | [H | H]]];
    rewrite H; [exact Hne | discriminate ..].
Qed.

(** Below 256 the non-prefixed form is the byte in two digits. *)
Lemma format_hex_num_byte (v : Z) :
  0 <= v < 256 -> format_hex_num v false = hex_byte v.
Proof.
  intros Hv. unfold format_hex_num, hex_byte.
  destruct (Z_lt_ge_dec v 16) as [Hlt | Hge].
  - rewrite to_hex_digit by exact Hlt. cbn [Nat.eqb andb orb negb].
    rewrite Z.div_small, Z.mod_small by lia. reflexivity.
  - rewrite to_hex_length_2 by lia. cbn [Nat.eqb andb orb negb].
    rewrite to_hex_step by lia.
    rewrite to_hex_digit by (apply Z.div_lt_upper_bound; lia).
    reflexivity.
Qed.

(** Below 65536 the prefixed form is the value in four digits. *)
Lemma format_hex_num_word (v : Z) :
  0 <= v < 65536 -> format_hex_num v true = hex_word v.
Proof.
  intros Hv. unfold format_hex_num, hex_word, hex_byte.
  assert (H16 : v / 16 / 16 / 16 = v / 256 / 16)
    by (Z.div_mod_to_equations; lia).
  assert (H8 : (v / 16 / 16) mod 16 = (v / 256) mod 16)
    by (Z.div_mod_to_equations; lia).
  assert (H4 : (v / 16) mod 16 = (v mod 256) / 16)
    by (Z.div_mod_to_equations; lia).
  assert (H0 : v mod 16 = (v mod 256) mod 16)
    by (Z.div_mod_to_equations; lia).
  rewrite <- H16, <- H8, <- H4, <- H0.
  destruct (Z_lt_ge_dec v 16) as [H1 | H1];
    [| destruct (Z_lt_ge_dec v 256) as [H2 | H2];
       [| destruct (Z_lt_ge_dec v 4096) as [H3 | H3]]].
  - rewrite to_hex_digit by exact H1. cbn [Nat.eqb andb orb negb].
    replace (v / 16) with 0 by (Z.div_mod_to_equations; lia).
    replace (v mod 16) with v by (Z.div_mod_to_equations; lia).
    reflexivity.
  - rewrite to_hex_length_2 by lia. cbn [Nat.eqb andb orb negb].
    rewrite to_hex_step by lia.
    rewrite to_hex_digit by (Z.div_mod_to_equations; lia).
    replace (v / 16 / 16) with 0 by (Z.div_mod_to_equations; lia).
    replace ((v / 16) mod 16) with (v / 16) by (Z.div_mod_to_equations; lia).
    reflexivity.
  - rewrite to_hex_length_3 by lia. cbn [Nat.eqb andb orb negb].
    rewrite to_hex_step by lia.
    rewrite to_hex_step by (Z.div_mod_to_equations; lia).
    rewrite to_hex_digit by (Z.div_mod_to_equations; lia).
    replace (v / 16 / 16 / 16) with 0 by (Z.div_mod_to_equations; lia).
    replace ((v / 16 / 16) mod 16) with (v / 16 / 16)
      by (Z.div_mod_to_equations; lia).
    reflexivity.
  - rewrite to_hex_length_4 by lia. cbn [Nat.eqb andb orb negb].
    rewrite to_hex_step by lia.
    rewrite to_hex_step by (Z.div_mod_to_equations; lia).
    rewrite to_hex_step by (Z.div_mod_to_equations; lia).
    rewrite to_hex_digit by (Z.div_mod_to_equations; lia).
    reflexivity.
Qed.

Lemma all_hex_hex_byte (v : Z) : all_hex (hex_byte v) = true.
Proof.
  assert (Hd : forall d, hex_value (hex_digit d) <> None).
  { intros d. destruct d as [|p|p]; [discriminate | | discriminate].
    do 4 (destruct p as [p|p|]; try discriminate). }
  unfold hex_byte. cbn.
  destruct (hex_value (hex_digit (v / 16))) eqn:E1; [|now apply Hd in E1].
  destruct (hex_value (hex_digit (v mod 16))) eqn:E2; [|now apply Hd in E2].
  reflexivity.
Qed.

Lemma all_hex_app (s1 s2 : string) :
  all_hex (s1 ++ s2) = all_hex s1 && all_hex s2.
Proof.
  induction s1 as [|c s1 IH]; cbn; [reflexivity|].
  destruct (hex_value c); [exact IH | reflexivity].
Qed.

(** C2, as the code has it: a counterexample to the two one-digit rows of
    the table.  The value 5 has one hexadecimal digit; without the prefix
    flag it comes out as "05" (two characters, not "0005"), with the flag as
    "0005" (four characters, not "05"). *)
Lemma format_hex_num_one_digit_rows_counterexample :
  String.length (to_hex 5) = 1%nat /\
  format_hex_num 5 false = "05" /\
  format_hex_num 5 false <> "000" ++ to_hex 5 /\
  format_hex_num 5 true = "0005" /\
  format_hex_num 5 true <> "0" ++ to_hex 5.
Proof. repeat split; try reflexivity; discriminate. Qed.

(** C2 (amended): for every non-negative value, [format_hex_num] pads by the
    number of hexadecimal digits: one digit becomes two characters with a
    leading "0" without the prefix flag and four characters with a leading
    "000" with it; two digits become four characters with a leading "00"
    with the flag and stay as they are without it; three digits get one
    leading "0"; four digits stay as they are. *)
Theorem format_hex_num_table (value : Z) (prefix : bool) :
  0 <= value ->
  (value < 16 ->
     String.length (to_hex value) = 1%nat /\
     format_hex_num value false = "0" ++ to_hex value /\
     String.length (format_hex_num value false) = 2%nat /\
     format_hex_num value true = "000" ++ to_hex value /\
     String.length (format_hex_num value true) = 4%nat) /\
  (16 <= value < 256 ->
     String.length (to_hex value) = 2%nat /\
     format_hex_num value true = "00" ++ to_hex value /\
     String.length (format_hex_num value true) = 4%nat /\
     format_hex_num value false = to_hex value) /\
  (256 <= value < 4096 ->
     String.length (to_hex value) = 3%nat /\
     format_hex_num value prefix = "0" ++ to_hex value /\
     String.length (format_hex_num value prefix) = 4%nat) /\
  (4096 <= value < 65536 ->
     String.length (to_hex value) = 4%nat /\
     format_hex_num value prefix = to_hex value).
Proof.
  intros Hv. repeat split.
  - now apply to_hex_length_1.
  - unfold format_hex_num. now rewrite to_hex_length_1.
  - unfold format_hex_num. rewrite to_hex_length_1 by assumption.
    cbn [Nat.eqb andb orb negb String.length append]. now rewrite to_hex_length_1.
  - unfold format_hex_num. now rewrite to_hex_length_1.
  - unfold format_hex_num. rewrite to_hex_length_1 by assumption.
    cbn [Nat.eqb andb orb negb String.length append]. now rewrite to_hex_length_1.
  - now apply to_hex_length_2.
  - unfold format_hex_num. now rewrite to_hex_length_2.
  - unfold format_hex_num. rewrite to_hex_length_2 by assumption.
    cbn [Nat.eqb andb orb negb String.length append]. now rewrite to_hex_length_2.
  - unfold format_hex_num. now rewrite to_hex_length_2.
  - now apply to_hex_length_3.
  - unfold format_hex_num. rewrite to_hex_length_3 by assumption.
    now destruct prefix.
  - unfold format_hex_num. rewrite to_hex_length_3 by assumption.
    destruct prefix; cbn [Nat.eqb andb orb negb String.length append];
      now rewrite to_hex_length_3.
  - now apply to_hex_length_4.
  - unfold format_hex_num. rewrite to_hex_length_4 by assumption.
    now destruct prefix.
Qed.

Lemma format_hex_num_table_witness :
  (format_hex_num 5 false = "05" /\ format_hex_num 5 true = "0005") /\
  (format_hex_num 42 true = "002a" /\ format_hex_num 42 false = "2a") /\
  format_hex_num 999 false = "03e7" /\
  format_hex_num 9999 true = "270f".
Proof.
  assert (H5 : 0 <= 5) by lia.
  assert (H42 : 0 <= 42) by lia.
  assert (H999 : 0 <= 999) by lia.
  assert (H9999 : 0 <= 9999) by lia.
  destruct (format_hex_num_table 5 false H5) as [R1 _].
  destruct (format_hex_num_table 42 false H42) as [_ [R2 _]].
  destruct (format_hex_num_table 999 false H999) as [_ [_ [R3 _]]].
  destruct (format_hex_num_table 9999 true H9999) as [_ [_ [_ R4]]].
  assert (B1 : 5 < 16) by lia.
  assert (B2 : 16 <= 42 < 256) by lia.
  assert (B3 : 256 <= 999 < 4096) by lia.
  assert (B4 : 4096 <= 9999 < 65536) by lia.
  destruct (R1 B1) as [_ [E1 [_ [E1' _]]]].
  destruct (R2 B2) as [_ [E2 [_ E2']]].
  destruct (R3 B3) as [_ [E3 _]].
  destruct (R4 B4) as [_ E4].
  exact (conj (conj E1 E1') (conj (conj E2 E2') (conj E3 E4))).
Defined.

(** C7: for every value from 0 to 9999 and either prefix flag, reading the
    output of [format_hex_num] back as hexadecimal gives the value. *)
Theorem format_hex_num_round_trip (value : Z) (prefix : bool) :
  0 <= value <= 9999 ->
  parse_hex (format_hex_num value prefix) = Some value.
Proof.
  intros [Hv _].
  rewrite parse_hex_nonempty by apply format_hex_num_nonempty.
  destruct (format_hex_num_cases value prefix) as [H | [H | [H | H]]];
    rewrite H; cbn; now apply parse_hex_from_to_hex.
Qed.

Lemma format_hex_num_round_trip_witness :
  0 <= 2024 <= 9999 /\ parse_hex (format_hex_num 2024 true) = Some 2024.
Proof.
  assert (H : 0 <= 2024 <= 9999) by lia.
  split; [exact H | exact (format_hex_num_round_trip 2024 true H)].
Defined.

End FormatHexNum.

(** ** Command builder *)

Section BuilderFacts.

Lemma to_size_t_small (x : Z) : 0 <= x < 2 ^ 32 -> to_size_t x = x.
Proof. intros H. unfold to_size_t, SIZE_WIDTH. now apply Z.mod_small. Qed.

Lemma year_field (y : Z) : 0 <= y -> to_size_t (Z.rem y 100) = y mod 100.
Proof.
  intros H. rewrite Z.rem_mod_nonneg by lia.
  apply to_size_t_small. pose proof (Z.mod_pos_bound y 100). lia.
Qed.

Lemma millisecond_field (usec : Z) :
  0 <= usec < 1000000 ->
  to_size_t (Z.quot usec 1000) = usec / 1000 /\ 0 <= usec / 1000 < 1000.
Proof.
  intros H. rewrite Z.quot_div_nonneg by lia.
  assert (0 <= usec / 1000 < 1000)
    by (split; [apply Z.div_pos | apply Z.div_lt_upper_bound]; lia).
  split; [apply to_size_t_small; lia | assumption].
Qed.

(** The timestamp of [append_time_string] in fixed-width fields. *)
Lemma append_time_string_fields (local : ESPTime) (usec : Z) :
  ESPTime_in_range local -> 0 <= usec < 1000000 ->
  append_time_string usec local =
    hex_byte (year local mod 100) ++ hex_byte (month local) ++
    hex_byte (day_of_month local) ++ hex_byte (hour local) ++
    hex_byte (minute local) ++ hex_byte (second local) ++
    hex_word (usec / 1000).
Proof.
  intros (Hy & Hmo & Hd & Hh & Hmi & Hs & _) Hu.
  destruct (millisecond_field usec Hu) as [Hms Hmsr].
  unfold append_time_string.
  rewrite year_field, Hms by lia.
  pose proof (Z.mod_pos_bound (year local) 100).
  rewrite !format_hex_num_byte, format_hex_num_word by lia.
  reflexivity.
Qed.

Lemma all_hex_hex_word (v : Z) : all_hex (hex_word v) = true.
Proof.
  unfold hex_word. now rewrite all_hex_app, !all_hex_hex_byte.
Qed.

(** C3, as the code has it: a counterexample to the count of 14.  At
    2024-03-15 13:07:42, 7 ms into the second, the query command is the
    opcode followed by 16 hexadecimal characters: the millisecond field has
    four. *)
Lemma query_command_14_chars_counterexample :
  make_raw_command 7000 COMMAND_USER_QUERY Plain.mar15 =
    "02C005" ++ "18030f0d072a" ++ "0007" /\
  String.length (append_time_string 7000 Plain.mar15) = 16%nat /\
  String.length (append_time_string 7000 Plain.mar15) <> 14%nat.
Proof. repeat split; try reflexivity. discriminate. Qed.

(** C3 (amended): for every local time, the query command built from opcode
    "02C005" is the opcode followed by exactly 16 hexadecimal characters:
    year mod 100, month, day, hour, minute and second, two characters each
    ([format_hex_num] without the prefix flag), then the milliseconds in four
    characters ([format_hex_num] with the prefix flag), in that order. *)
Theorem query_command_timestamp (local : ESPTime) (usec : Z) :
  ESPTime_in_range local -> 0 <= usec < 1000000 ->
  make_raw_command usec COMMAND_USER_QUERY local =
    "02C005" ++
    format_hex_num (year local mod 100) false ++
    format_hex_num (month local) false ++
    format_hex_num (day_of_month local) false ++
    format_hex_num (hour local) false ++
    format_hex_num (minute local) false ++
    format_hex_num (second local) false ++
    format_hex_num (usec / 1000) true /\
  String.length (format_hex_num (usec / 1000) true) = 4%nat /\
  String.length (append_time_string usec local) = 16%nat /\
  all_hex (append_time_string usec local) = true.
Proof.
  intros Hl Hu.
  pose proof (append_time_string_fields local usec Hl Hu) as Hf.
  destruct Hl as (Hy & _).
  destruct (millisecond_field usec Hu) as [Hms Hmsr].
  repeat split.
  - unfold make_raw_command, append_time_string.
    rewrite year_field, Hms by lia. reflexivity.
  - rewrite format_hex_num_word by lia. reflexivity.
  - rewrite Hf. reflexivity.
  - rewrite Hf.
    now rewrite !all_hex_app, !all_hex_hex_byte, all_hex_hex_word.
Qed.

Lemma mar15_in_range : ESPTime_in_range Plain.mar15.
Proof. unfold ESPTime_in_range, Plain.mar15; cbn. lia. Qed.

Lemma query_command_timestamp_witness :
  make_raw_command 7000 COMMAND_USER_QUERY Plain.mar15 = "02C00518030f0d072a0007" /\
  String.length (append_time_string 7000 Plain.mar15) = 16%nat.
Proof.
  assert (Hu : 0 <= 7000 < 1000000) by lia.
  destruct (query_command_timestamp Plain.mar15 7000 mar15_in_range Hu)
    as (E & _ & L & _).
  exact (conj E L).
Defined.

(** C5, as the code has it: a counterexample to the weekday field "01".
    For [day_of_week = 3] the field is the hexadecimal of 3 - 1, "02". *)
Lemma set_time_weekday_3_counterexample :
  format_week_day 3 = "02" /\
  format_week_day 3 <> "01" /\
  set_time_buffer Plain.mar15_dow3 = "09A001" ++ "02" ++ "0d072a" ++ "18030f".
Proof. repeat split; try reflexivity. discriminate. Qed.

(** C5 (amended): the set-time command built from opcode "09A001" has the
    weekday first after the opcode, as [format_hex_num (day_of_week - 1)]
    without the prefix flag -- "02" for [day_of_week = 3] -- then hour,
    minute, second, year mod 100, month and day, two characters each, and no
    millisecond field: 14 characters after the opcode. *)
Theorem set_time_command_fields (local : ESPTime) :
  ESPTime_in_range local -> 1 <= day_of_week local <= 7 ->
  set_time_buffer local =
    "09A001" ++
    format_hex_num (day_of_week local - 1) false ++
    format_hex_num (hour local) false ++
    format_hex_num (minute local) false ++
    format_hex_num (second local) false ++
    format_hex_num (year local mod 100) false ++
    format_hex_num (month local) false ++
    format_hex_num (day_of_month local) false /\
  append_set_time_string local =
    hex_byte (day_of_week local - 1) ++
    hex_byte (hour local) ++ hex_byte (minute local) ++ hex_byte (second local) ++
    hex_byte (year local mod 100) ++ hex_byte (month local) ++
    hex_byte (day_of_month local) /\
  String.length (append_set_time_string local) = 14%nat /\
  (day_of_week local = 3 -> format_week_day (day_of_week local) = "02").
Proof.
  intros (Hy & Hmo & Hd & Hh & Hmi & Hs & _) Hw.
  pose proof (Z.mod_pos_bound (year local) 100).
  assert (E : append_set_time_string local =
    format_hex_num (day_of_week local - 1) false ++
    format_hex_num (hour local) false ++
    format_hex_num (minute local) false ++
    format_hex_num (second local) false ++
    format_hex_num (year local mod 100) false ++
    format_hex_num (month local) false ++
    format_hex_num (day_of_month local) false).
  { unfold append_set_time_string, format_week_day.
    rewrite year_field by lia.
    rewrite (to_size_t_small (day_of_week local - 1)) by lia.
    reflexivity. }
  repeat split.
  - unfold set_time_buffer. now rewrite E.
  - rewrite E. rewrite !format_hex_num_byte by lia. reflexivity.
  - rewrite E. rewrite !format_hex_num_byte by lia. reflexivity.
  - intros ->. reflexivity.
Qed.

Lemma mar15_dow3_in_range : ESPTime_in_range Plain.mar15_dow3.
Proof. unfold ESPTime_in_range, Plain.mar15_dow3; cbn. lia. Qed.

Lemma set_time_command_fields_witness :
  set_time_buffer Plain.mar15_dow3 = "09A001020d072a18030f" /\
  format_week_day 3 = "02".
Proof.
  assert (Hw : 1 <= day_of_week Plain.mar15_dow3 <= 7) by (cbn; lia).
  destruct (set_time_command_fields Plain.mar15_dow3 mar15_dow3_in_range Hw)
    as (E & _ & _ & W).
  exact (conj E (W eq_refl)).
Defined.

End BuilderFacts.

(** ** Session and protocol state machine *)

Section CommFacts.
Context {crypto : Crypto}.

Lemma find_from_ge (s pattern : string) :
  forall (pos n : nat), find_from pos s pattern = Some n -> (pos <= n)%nat.
Proof.
  induction s as [|c s IH]; intros pos n; cbn [find_from].
  - destruct (String.prefix pattern EmptyString); intros H.
    + injection H as ->. apply Nat.le_refl.
    + discriminate H.
  - destruct (String.prefix pattern (String c s)); intros H.
    + injection H as ->. apply Nat.le_refl.
    + apply IH in H. lia.
Qed.

(** [s.find(pattern) == 0] says that [s] begins with [pattern]. *)
Lemma found_at_0_find (s pattern : string) :
  found_at_0 (find s pattern) = String.prefix pattern s.
Proof.
  unfold find. destruct s as [|c s]; cbn [find_from].
  - now destruct (String.prefix pattern EmptyString).
  - destruct (String.prefix pattern (String c s)); [reflexivity|].
    destruct (find_from 1 s pattern) as [n|] eqn:E; [|reflexivity].
    apply find_from_ge in E. destruct n; [lia | reflexivity].
Qed.

(** What [send_command] does, for any command text. *)
Lemma send_command_eq (local : ESPTime) (usec : Z) (command : string) (s : Session) :
  let raw := command ++ append_time_string usec local in
  let len := Z.of_nat (List.length (encrypt raw)) in
  send_command local usec command s =
    Some (set_message_ {| Message.raw_command := command;
                          Message.bytes := encrypt raw;
                          Message.length := len |} s,
          [Crypto_encrypt raw; Crypto_decrypt (encrypt raw);
           esp_ble_gattc_write_char (write_char_handle_ s) len (encrypt raw)]).
Proof. reflexivity. Qed.

Lemma append_time_string_nonempty (usec : Z) (local : ESPTime) :
  append_time_string usec local <> EmptyString.
Proof.
  unfold append_time_string. cbv zeta.
  destruct (format_hex_num (to_size_t (Z.rem (year local) 100)) false) eqn:E;
    [now apply format_hex_num_nonempty in E | simpl; discriminate].
Qed.

Lemma append_nonempty_neq (a b : string) : b <> EmptyString -> a ++ b <> a.
Proof.
  intros Hb H. apply Hb. clear Hb.
  induction a as [|c a IH]; simpl in H; [exact H|].
  injection H as H. now apply IH.
Qed.

(** [send_command] makes exactly one characteristic write. *)
Lemma send_command_writes (local : ESPTime) (usec : Z) (command : string)
    (s s' : Session) (trace : list Effect) :
  send_command local usec command s = Some (s', trace) ->
  Monitor.writes_issued trace = 1%nat.
Proof. rewrite send_command_eq. intros [= _ <-]. reflexivity. Qed.

(** C1 (amended): a disconnect event, in any state, moves the session to
    [IDLE], puts the write-characteristic handle back to 0 and the
    MTU-negotiated flag back to false, and calls [on_disconnected] exactly
    once; the remembered last-sent command (and the notify handle) are left
    as they were. *)
Theorem disconnect_event_resets (env : Env) (reason : Z) (s : Session) :
  gattc_event_handler env (ESP_GATTC_DISCONNECT_EVT reason) s =
    Some ({| node_state := IDLE;
             write_char_handle_ := write_char_handle_ initial;
             notify_char_handle_ := notify_char_handle_ s;
             has_mtu_change_ := has_mtu_change_ initial;
             message_ := message_ s |},
          [on_disconnected]).
Proof. reflexivity. Qed.

(** C4 (amended): for every command text, handshake or not, [send_command]
    encrypts and writes the text followed by the timestamp of
    [append_time_string], which is never empty; what it remembers as the
    last-sent command is the text as the caller gave it. *)
Theorem send_command_appends_timestamp (local : ESPTime) (usec : Z)
    (command : string) (s : Session) :
  let raw := make_raw_command usec command local in
  let len := Z.of_nat (List.length (encrypt raw)) in
  send_command local usec command s =
    Some (set_message_ {| Message.raw_command := command;
                          Message.bytes := encrypt raw;
                          Message.length := len |} s,
          [Crypto_encrypt raw; Crypto_decrypt (encrypt raw);
           esp_ble_gattc_write_char (write_char_handle_ s) len (encrypt raw)]) /\
  raw = command ++ append_time_string usec local /\
  raw <> command.
Proof.
  cbv zeta. split; [apply send_command_eq | split; [reflexivity|]].
  unfold make_raw_command.
  apply append_nonempty_neq, append_time_string_nonempty.
Qed.

(** C6: a notification on the notify characteristic whose decrypted text
    begins with "0cc0060505" makes the machine send the set-user-key command
    "02C001" once, and [on_notify] is not called; any other decrypted text
    is handed to [on_notify], and nothing is written. *)
Theorem notify_event_dispatch (env : Env) (data : list byte) (s : Session) :
  let value := decrypt data in
  let raw := make_raw_command (tv_usec env) COMMAND_SET_USER_KEY (time_now env 0%nat) in
  let len := Z.of_nat (List.length (encrypt raw)) in
  (String.prefix "0cc0060505" value = true ->
     exists trace,
       gattc_event_handler env (ESP_GATTC_NOTIFY_EVT (notify_char_handle_ s) data) s =
         Some (set_message_ {| Message.raw_command := "02C001";
                               Message.bytes := encrypt raw;
                               Message.length := len |} s, trace) /\
       filter Monitor.is_write trace =
         [esp_ble_gattc_write_char (write_char_handle_ s) len (encrypt raw)] /\
       (forall v, ~ In (on_notify v) trace)) /\
  (String.prefix "0cc0060505" value = false ->
     gattc_event_handler env (ESP_GATTC_NOTIFY_EVT (notify_char_handle_ s) data) s =
       Some (s, [Crypto_decrypt data; on_notify value])).
Proof.
  cbv zeta.
  assert (E : forall b,
    String.prefix "0cc0060505" (decrypt data) = b ->
    gattc_event_handler env (ESP_GATTC_NOTIFY_EVT (notify_char_handle_ s) data) s =
    (call (Crypto_decrypt data) ;;
     if b then send_command (time_now env 0%nat) (tv_usec env) COMMAND_SET_USER_KEY
     else call (on_notify (decrypt data))) s).
  { intros b Hb. unfold gattc_event_handler, read.
    rewrite Z.eqb_refl. cbn [negb].
    rewrite found_at_0_find. unfold decode_value.
    change NOTIFY_MESSAGE_PHONE_USER with "0cc0060505". now rewrite Hb. }
  split; intros Hp; rewrite (E _ Hp).
  - eexists. split; [reflexivity|]. split; [reflexivity|].
    intros v [H | [H | [H | [H | []]]]]; discriminate H.
  - reflexivity.
Qed.

(** Every callback that returns has made at most one characteristic
    write. *)
Lemma handler_writes (env : Env) (event : Event) (s s' : Session)
    (trace : list Effect) :
  gattc_event_handler env event s = Some (s', trace) ->
  (Monitor.writes_issued trace <= 1)%nat.
Proof.
  intros H. destruct event;
    cbv [gattc_event_handler read seq call update skip send_command
         send_set_time_ search_notify_chara search_write_chara
         null_dereference] in H;
    repeat match type of H with
           | context [match ?x with _ => _ end] =>
               lazymatch x with
               | context [match _ with _ => _ end] => fail
               | _ => destruct x
               end
           end;
    try discriminate H;
    injection H as _ <-; cbn; lia.
Qed.

(** The only callback that can fail to return is discovery finding a
    notify characteristic that lacks its configuration descriptor. *)
Lemma handler_returns (env : Env) (event : Event) (s : Session) :
  (event = ESP_GATTC_SEARCH_CMPL_EVT ->
   forall chara, notify_chara env = Some chara -> notify_descriptor chara <> None) ->
  exists s' trace, gattc_event_handler env event s = Some (s', trace).
Proof.
  intros Hd.
  destruct (gattc_event_handler env event s) as [[s' trace]|] eqn:H;
    [now exists s', trace|].
  exfalso. destruct event;
    cbv [gattc_event_handler read seq call update skip send_command
         send_set_time_ search_notify_chara search_write_chara
         null_dereference] in H;
    try specialize (Hd eq_refl);
    repeat match type of H with
           | context [match ?x with _ => _ end] =>
               lazymatch x with
               | context [match _ with _ => _ end] => fail
               | _ => destruct x eqn:?
               end
           end;
    try discriminate H.
  all: eapply Hd; eauto.
Qed.

(** C8 (amended): the machine keeps no count of writes in flight.  Each
    transport event makes it issue at most one characteristic write, but
    nothing holds a write back until the previous one is acknowledged. *)
Theorem one_write_per_event (env : Env) (event : Event) (s s' : Session)
    (trace : list Effect) :
  gattc_event_handler env event s = Some (s', trace) ->
  (Monitor.writes_issued trace <= 1)%nat /\
  (forall pending,
     Monitor.issue pending trace = None ->
     (0 < pending)%nat /\ Monitor.writes_issued trace = 1%nat).
Proof.
  intros H. pose proof (handler_writes _ _ _ _ _ H) as Hw.
  split; [exact Hw|]. clear H. revert Hw.
  unfold Monitor.writes_issued.
  induction trace as [|e rest IH]; intros Hw pending Hi; [discriminate Hi|].
  revert Hw Hi. cbn [Monitor.issue filter].
  destruct (Monitor.is_write e); cbn [List.length]; intros Hw Hi.
  - destruct (pending =? 0)%nat eqn:Ep.
    + apply IH in Hi; lia.
    + apply Nat.eqb_neq in Ep. lia.
  - now apply IH.
Qed.

(** C9: a notification whose handle is not the stored notify handle is
    dropped: nothing is decrypted, no callback runs, nothing is written and
    the session stays as it was. *)
Theorem foreign_notification_ignored (env : Env) (h : Z) (data : list byte)
    (s : Session) :
  h <> notify_char_handle_ s ->
  gattc_event_handler env (ESP_GATTC_NOTIFY_EVT h data) s = Some (s, []).
Proof.
  intros Hh. unfold gattc_event_handler, read.
  apply Z.eqb_neq in Hh. now rewrite Hh.
Qed.

(** C10: [connect] on a connected transport does nothing; the transport's
    own connect is called exactly when it reports not connected.  The
    session is the same afterwards in both cases. *)
Theorem connect_only_when_disconnected (env : Env) (s : Session) :
  connect env s =
    Some (s, if parent_connected env then [] else [parent_connect]).
Proof. unfold connect. now destruct (parent_connected env). Qed.

End CommFacts.

(** ** Runs with the plain cipher *)

Section Runs.

Example discovery_run :
  Plain.run_plain [(Plain.env0, ESP_GATTC_SEARCH_CMPL_EVT)] initial =
    Some (Plain.discovered,
          [esp_ble_gattc_register_for_notify 42;
           esp_ble_gattc_write_char_descr 43 [x01; x00]%byte]).
Proof. reflexivity. Qed.

(** The handshake of section 8 ends in [ESTABLISHED], having sent the user
    query, the set-user-key command and the set-time command, each followed
    by the timestamp. *)
Example handshake_run :
  Plain.final_state (Plain.run_plain Plain.handshake initial) = Some ESTABLISHED /\
  Plain.sent (Plain.run_plain Plain.handshake initial) =
    ["02C005" ++ "18030f0d072a0007";
     "02C001" ++ "18030f0d072a0007";
     "09A001" ++ "050d072a18030f" ++ "18030f0d072a0007"] /\
  Monitor.single_outstanding (crypto := Plain.plain) Plain.handshake initial 0 = true.
Proof. repeat split; reflexivity. Qed.

(** C1, as the code has it: a counterexample to "the last-sent command is
    reset".  After discovery, subscription and the MTU result the machine
    has sent the user query; the disconnect that follows leaves "02C005" as
    the remembered command, where a fresh session has the empty string. *)
Lemma disconnect_keeps_last_command_counterexample :
  Plain.last_command (Plain.run_plain Plain.until_disconnect initial) = Some "02C005" /\
  Plain.final_state (Plain.run_plain Plain.until_disconnect initial) = Some IDLE /\
  Message.raw_command (message_ initial) = "" /\
  Plain.last_command (Plain.run_plain Plain.until_disconnect initial) <>
    Some (Message.raw_command (message_ initial)).
Proof. repeat split; try reflexivity. discriminate. Qed.

(** C4, as the code has it: a counterexample to "unchanged".  The command
    "05020000" is none of the handshake commands, and what is encrypted and
    written is the command followed by the timestamp. *)
Lemma send_command_other_opcode_counterexample :
  Plain.sent (@send_command Plain.plain Plain.mar15 7000 "05020000" Plain.discovered) =
    ["05020000" ++ "18030f0d072a0007"] /\
  option_map snd
    (@send_command Plain.plain Plain.mar15 7000 "05020000" Plain.discovered) <>
    Some [Crypto_encrypt "05020000";
          Crypto_decrypt (@encrypt Plain.plain "05020000");
          esp_ble_gattc_write_char 40 8 (@encrypt Plain.plain "05020000")].
Proof. split; [reflexivity | discriminate]. Qed.

Lemma notify_event_dispatch_witness :
  (exists trace,
     @gattc_event_handler Plain.plain Plain.env0
       (ESP_GATTC_NOTIFY_EVT 42 Plain.phone_user_prompt) Plain.discovered =
       Some (set_message_
               {| Message.raw_command := "02C001";
                  Message.bytes := @encrypt Plain.plain "02C00118030f0d072a0007";
                  Message.length := 22 |} Plain.discovered, trace) /\
     filter Monitor.is_write trace =
       [esp_ble_gattc_write_char 40 22 (@encrypt Plain.plain "02C00118030f0d072a0007")] /\
     (forall v, ~ In (on_notify v) trace)) /\
  @gattc_event_handler Plain.plain Plain.env0
    (ESP_GATTC_NOTIFY_EVT 42 Plain.telemetry) Plain.discovered =
    Some (Plain.discovered, [Crypto_decrypt Plain.telemetry; on_notify "07040102"]).
Proof.
  destruct (@notify_event_dispatch Plain.plain Plain.env0
              Plain.phone_user_prompt Plain.discovered) as [A _].
  destruct (@notify_event_dispatch Plain.plain Plain.env0
              Plain.telemetry Plain.discovered) as [_ B].
  exact (conj (A eq_refl) (B eq_refl)).
Defined.

(** C8, as the code has it: a counterexample to "no write before the
    previous acknowledgement".  The MTU result makes the machine write the
    user query; the prompt that arrives next makes it write the
    set-user-key command, and no write acknowledgement has come in
    between. *)
Lemma write_before_acknowledgement_counterexample :
  Monitor.single_outstanding (crypto := Plain.plain) Plain.prompt_before_ack initial 0 = false /\
  Plain.sent (Plain.run_plain Plain.prompt_before_ack initial) =
    ["02C005" ++ "18030f0d072a0007"; "02C001" ++ "18030f0d072a0007"].
Proof. split; reflexivity. Qed.

Lemma one_write_per_event_witness :
  exists s' trace,
    @gattc_event_handler Plain.plain Plain.env0 (ESP_GATTC_CFG_MTU_EVT 512)
      Plain.discovered = Some (s', trace) /\
    (Monitor.writes_issued trace <= 1)%nat.
Proof.
  eexists. eexists.
  assert (H : @gattc_event_handler Plain.plain Plain.env0
                (ESP_GATTC_CFG_MTU_EVT 512) Plain.discovered = Some (_, _))
    by reflexivity.
  exact (conj H (proj1 (@one_write_per_event Plain.plain _ _ _ _ _ H))).
Defined.

Lemma foreign_notification_ignored_witness :
  @gattc_event_handler Plain.plain Plain.env0
    (ESP_GATTC_NOTIFY_EVT 40 Plain.phone_user_prompt) Plain.discovered =
    Some (Plain.discovered, []).
Proof.
  assert (H : 40 <> notify_char_handle_ Plain.discovered) by (cbn; lia).
  exact (@foreign_notification_ignored Plain.plain Plain.env0 40
           Plain.phone_user_prompt Plain.discovered H).
Defined.

End Runs.

(* ================================================================== *)
(** * Further properties of the codec and the builder *)

Section CodecMore.

Lemma length_app (a b : string) :
  String.length (a ++ b) = (String.length a + String.length b)%nat.
Proof. induction a as [|c a IH]; simpl; [reflexivity | now rewrite IH]. Qed.

Lemma prefix_app (a b : string) : String.prefix a (a ++ b) = true.
Proof.
  induction a as [|c a IH]; simpl; [now destruct b|].
  destruct (ascii_dec c c) as [_ | Hc]; [exact IH | now elim Hc].
Qed.

(** The number of digits [std::hex] prints: [n + 1] between [16 ^ n] and
    [16 ^ (n + 1)]. *)
Lemma to_hex_length_pow (n : nat) :
  forall v : Z,
    16 ^ Z.of_nat n <= v < 16 ^ Z.of_nat (S n) ->
    String.length (to_hex v) = S n.
Proof.
  induction n as [|k IH]; intros v Hv.
  - apply to_hex_length_1. change (16 ^ Z.of_nat 1) with 16 in Hv. lia.
  - rewrite !Nat2Z.inj_succ, !Z.pow_succ_r in Hv by lia.
    rewrite Nat2Z.inj_succ in IH.
    assert (0 < 16 ^ Z.of_nat k) by (apply Z.pow_pos_nonneg; lia).
    rewrite to_hex_step, length_snoc by lia.
    f_equal. apply IH.
    rewrite Z.pow_succ_r by lia.
    split; [apply Z.div_le_lower_bound | apply Z.div_lt_upper_bound]; lia.
Qed.

(** Reading back what [format_hex_num] prints, for any value. *)
Lemma parse_format_hex_num (v : Z) (prefix : bool) :
  0 <= v -> parse_hex (format_hex_num v prefix) = Some v.
Proof.
  intros Hv.
  rewrite parse_hex_nonempty by apply format_hex_num_nonempty.
  destruct (format_hex_num_cases v prefix) as [H | [H | [H | H]]];
    rewrite H; cbn; now apply parse_hex_from_to_hex.
Qed.

(** X1: from 65536 on (five hexadecimal digits or more) [format_hex_num]
    adds no padding whatever the flag: the output is the bare digits, five
    characters at least, so no longer a whole number of bytes when the
    digit count is odd. *)
Theorem format_hex_num_wide (value : Z) (prefix : bool) :
  65536 <= value ->
  format_hex_num value prefix = to_hex value /\
  (5 <= String.length (format_hex_num value prefix))%nat.
Proof.
  intros Hv. pose proof (to_hex_length_5 value Hv) as Hl.
  assert (E : format_hex_num value prefix = to_hex value).
  { unfold format_hex_num.
    destruct (String.length (to_hex value)) as [|[|[|[|[|n]]]]];
      try lia; reflexivity. }
  rewrite E. split; [reflexivity | exact Hl].
Qed.

Lemma format_hex_num_wide_witness :
  format_hex_num 65536 true = "10000" /\
  (5 <= String.length (format_hex_num 65536 true))%nat.
Proof.
  assert (H : 65536 <= 65536) by lia.
  exact (format_hex_num_wide 65536 true H).
Defined.

(** X2: [format_hex_num] never prints two different values alike, whatever
    the flags: equal outputs come from equal values. *)
Theorem format_hex_num_injective (a b : Z) (p q : bool) :
  0 <= a -> 0 <= b ->
  format_hex_num a p = format_hex_num b q -> a = b.
Proof.
  intros Ha Hb E.
  pose proof (parse_format_hex_num a p Ha) as Pa.
  pose proof (parse_format_hex_num b q Hb) as Pb.
  rewrite E, Pb in Pa. now injection Pa.
Qed.

Lemma format_hex_num_injective_witness : 7 = 7.
Proof.
  assert (Ha : 0 <= 7) by lia.
  exact (format_hex_num_injective 7 7 true true Ha Ha eq_refl).
Defined.

(** X3: [format_week_day] prints [day - 1] in two characters for a day from
    1 to 256; for a day of 0 or below the subtraction wraps in [size_t] and
    the field has eight characters. *)
Theorem format_week_day_range (day : Z) :
  (1 <= day <= 256 ->
     format_week_day day = hex_byte (day - 1) /\
     parse_hex (format_week_day day) = Some (day - 1)) /\
  (- 2 ^ 31 < day <= 0 ->
     format_week_day day = to_hex (2 ^ 32 + day - 1) /\
     String.length (format_week_day day) = 8%nat).
Proof.
  unfold format_week_day. split; intros Hd.
  - rewrite to_size_t_small by lia. split.
    + apply format_hex_num_byte. lia.
    + apply parse_format_hex_num. lia.
  - assert (Hw : to_size_t (day - 1) = 2 ^ 32 + day - 1).
    { unfold to_size_t, SIZE_WIDTH.
      symmetry. apply (Z.mod_unique_pos _ _ (-1)). lia. lia. }
    rewrite Hw.
    assert (E : format_hex_num (2 ^ 32 + day - 1) false = to_hex (2 ^ 32 + day - 1))
      by (apply format_hex_num_wide; lia).
    rewrite E. split; [reflexivity|].
    apply (to_hex_length_pow 7).
    change (16 ^ Z.of_nat 7) with 268435456.
    change (16 ^ Z.of_nat 8) with 4294967296. lia.
Qed.

Lemma format_week_day_range_witness :
  (format_week_day 1 = "00" /\ parse_hex (format_week_day 1) = Some 0) /\
  (format_week_day 0 = "ffffffff" /\ String.length (format_week_day 0) = 8%nat).
Proof.
  destruct (format_week_day_range 1) as [A _].
  destruct (format_week_day_range 0) as [_ B].
  assert (H1 : 1 <= 1 <= 256) by lia.
  assert (H0 : - 2 ^ 31 < 0 <= 0) by lia.
  exact (conj (A H1) (B H0)).
Defined.

End CodecMore.

Section BuilderMore.

Lemma parse_hex_byte_chars (v : Z) :
  0 <= v < 256 ->
  parse_hex (String (hex_digit (v / 16)) (String (hex_digit (v mod 16)) EmptyString))
  = Some v.
Proof.
  intros Hv. change (parse_hex (hex_byte v) = Some v).
  rewrite <- format_hex_num_byte by exact Hv.
  apply parse_format_hex_num. lia.
Qed.

Lemma parse_hex_word_chars (v : Z) :
  0 <= v < 65536 ->
  parse_hex (String (hex_digit (v / 256 / 16))
            (String (hex_digit ((v / 256) mod 16))
            (String (hex_digit (v mod 256 / 16))
            (String (hex_digit ((v mod 256) mod 16)) EmptyString))))
  = Some v.
Proof.
  intros Hv. change (parse_hex (hex_word v) = Some v).
  rewrite <- format_hex_num_word by exact Hv.
  apply parse_format_hex_num. lia.
Qed.

(** The set-time fields in fixed width, for a weekday from 1 to 256. *)
Lemma append_set_time_string_fields (local : ESPTime) :
  ESPTime_in_range local -> 1 <= day_of_week local ->
  append_set_time_string local =
    hex_byte (day_of_week local - 1) ++
    hex_byte (hour local) ++ hex_byte (minute local) ++ hex_byte (second local) ++
    hex_byte (year local mod 100) ++ hex_byte (month local) ++
    hex_byte (day_of_month local).
Proof.
  intros (Hy & Hmo & Hd & Hh & Hmi & Hs & Hw) Hw1.
  pose proof (Z.mod_pos_bound (year local) 100).
  unfold append_set_time_string, format_week_day.
  rewrite year_field by lia.
  rewrite (to_size_t_small (day_of_week local - 1)) by lia.
  rewrite !format_hex_num_byte by lia. reflexivity.
Qed.

(** X4: the timestamp of [append_time_string] can be taken apart again:
    characters 0-1 read back as the year mod 100, then two characters each
    for month, day, hour, minute and second, and characters 12-15 read back
    as the milliseconds. *)
Theorem append_time_string_round_trip (local : ESPTime) (usec : Z) :
  ESPTime_in_range local -> 0 <= usec < 1000000 ->
  let t := append_time_string usec local in
  parse_hex (substring 0 2 t) = Some (year local mod 100) /\
  parse_hex (substring 2 2 t) = Some (month local) /\
  parse_hex (substring 4 2 t) = Some (day_of_month local) /\
  parse_hex (substring 6 2 t) = Some (hour local) /\
  parse_hex (substring 8 2 t) = Some (minute local) /\
  parse_hex (substring 10 2 t) = Some (second local) /\
  parse_hex (substring 12 4 t) = Some (usec / 1000).
Proof.
  intros Hl Hu. cbv zeta.
  rewrite (append_time_string_fields local usec Hl Hu).
  destruct Hl as (Hy & Hmo & Hd & Hh & Hmi & Hs & _).
  pose proof (Z.mod_pos_bound (year local) 100).
  destruct (millisecond_field usec Hu) as [_ Hms].
  unfold hex_word, hex_byte. cbn [append substring].
  repeat split;
    first [apply parse_hex_byte_chars | apply parse_hex_word_chars]; lia.
Qed.

Lemma append_time_string_round_trip_witness :
  parse_hex (substring 0 2 (append_time_string 7000 Plain.mar15)) = Some 24 /\
  parse_hex (substring 12 4 (append_time_string 7000 Plain.mar15)) = Some 7.
Proof.
  assert (Hu : 0 <= 7000 < 1000000) by lia.
  destruct (append_time_string_round_trip Plain.mar15 7000 mar15_in_range Hu)
    as (Y & _ & _ & _ & _ & _ & M).
  exact (conj Y M).
Defined.

(** X5: the set-time fields can be taken apart again: characters 0-1 read
    back as [day_of_week - 1], then two characters each for hour, minute,
    second, year mod 100, month and day. *)
Theorem append_set_time_string_round_trip (local : ESPTime) :
  ESPTime_in_range local -> 1 <= day_of_week local ->
  let t := append_set_time_string local in
  parse_hex (substring 0 2 t) = Some (day_of_week local - 1) /\
  parse_hex (substring 2 2 t) = Some (hour local) /\
  parse_hex (substring 4 2 t) = Some (minute local) /\
  parse_hex (substring 6 2 t) = Some (second local) /\
  parse_hex (substring 8 2 t) = Some (year local mod 100) /\
  parse_hex (substring 10 2 t) = Some (month local) /\
  parse_hex (substring 12 2 t) = Some (day_of_month local) /\
  String.length t = 14%nat.
Proof.
  intros Hl Hw1. cbv zeta.
  rewrite (append_set_time_string_fields local Hl Hw1).
  destruct Hl as (Hy & Hmo & Hd & Hh & Hmi & Hs & Hw).
  pose proof (Z.mod_pos_bound (year local) 100).
  unfold hex_byte. cbn [append substring String.length].
  repeat split; apply parse_hex_byte_chars; lia.
Qed.

Lemma append_set_time_string_round_trip_witness :
  parse_hex (substring 0 2 (append_set_time_string Plain.mar15)) = Some 5 /\
  parse_hex (substring 12 2 (append_set_time_string Plain.mar15)) = Some 15.
Proof.
  assert (Hw : 1 <= day_of_week Plain.mar15) by (cbn; lia).
  destruct (append_set_time_string_round_trip Plain.mar15 mar15_in_range Hw)
    as (W & _ & _ & _ & _ & _ & D & _).
  exact (conj W D).
Defined.

(** X6: whatever the command text, [make_raw_command] keeps it as the
    beginning of the raw command and makes it exactly 16 characters longer;
    a command of hexadecimal characters gives a raw command of hexadecimal
    characters. *)
Theorem make_raw_command_shape (command : string) (local : ESPTime) (usec : Z) :
  ESPTime_in_range local -> 0 <= usec < 1000000 ->
  String.prefix command (make_raw_command usec command local) = true /\
  String.length (make_raw_command usec command local) =
    (String.length command + 16)%nat /\
  (all_hex command = true ->
   all_hex (make_raw_command usec command local) = true).
Proof.
  intros Hl Hu. unfold make_raw_command.
  pose proof (append_time_string_fields local usec Hl Hu) as Hf.
  split; [apply prefix_app|]. split.
  - rewrite length_app, Hf. reflexivity.
  - intros Hc. rewrite all_hex_app, Hc, Hf.
    now rewrite !all_hex_app, !all_hex_hex_byte, all_hex_hex_word.
Qed.

Lemma make_raw_command_shape_witness :
  String.prefix "05020000" (make_raw_command 7000 "05020000" Plain.mar15) = true /\
  String.length (make_raw_command 7000 "05020000" Plain.mar15) = 24%nat /\
  all_hex (make_raw_command 7000 "05020000" Plain.mar15) = true.
Proof.
  assert (Hu : 0 <= 7000 < 1000000) by lia.
  destruct (make_raw_command_shape "05020000" Plain.mar15 7000 mar15_in_range Hu)
    as (P & L & A).
  exact (conj P (conj L (A eq_refl))).
Defined.

End BuilderMore.

(* ================================================================== *)
(** * Further properties of the state machine *)

Section CommMore.
Context {crypto : Crypto}.

(** Take a callback's result apart, one branch of the source per goal. *)
Ltac handler_cases H :=
  cbv [gattc_event_handler read seq call update skip send_command
       send_set_time_ search_notify_chara search_write_chara
       null_dereference] in H;
  repeat match type of H with
         | context [match ?x with _ => _ end] =>
             lazymatch x with
             | context [match _ with _ => _ end] => fail
             | _ => destruct x eqn:?
             end
         end;
  try discriminate H.

(** X7: whatever the event, a characteristic write goes to the write handle
    the session held when the event arrived, and carries the cipher text and
    the length that [message_] holds afterwards. *)
Theorem writes_use_stored_handle (env : Env) (event : Event) (s s' : Session)
    (trace : list Effect) (h len : Z) (value : list byte) :
  gattc_event_handler env event s = Some (s', trace) ->
  In (esp_ble_gattc_write_char h len value) trace ->
  h = write_char_handle_ s /\
  value = Message.bytes (message_ s') /\
  len = Message.length (message_ s').
Proof.
  intros H Hin. destruct event; handler_cases H;
    injection H as <- <-; cbn in Hin;
    repeat (destruct Hin as [Hin | Hin]; try discriminate Hin);
    try contradiction;
    injection Hin as <- <- <-; repeat split.
Qed.



(** X10: outside discovery the notify handle is never changed; outside
    discovery and disconnect events the write handle is never changed; and
    [message_] is changed only by a callback that writes. *)
Theorem session_frame (env : Env) (event : Event) (s s' : Session)
    (trace : list Effect) :
  gattc_event_handler env event s = Some (s', trace) ->
  (event <> ESP_GATTC_SEARCH_CMPL_EVT ->
     notify_char_handle_ s' = notify_char_handle_ s) /\
  (event <> ESP_GATTC_SEARCH_CMPL_EVT ->
   (forall reason, event <> ESP_GATTC_DISCONNECT_EVT reason) ->
     write_char_handle_ s' = write_char_handle_ s) /\
  (Monitor.writes_issued trace = 0%nat -> message_ s' = message_ s).
Proof.
  intros H. destruct event; handler_cases H; injection H as <- <-;
    (split; [|split]);
    try (intros; reflexivity);
    try (intros Hn; now elim Hn);
    try (intros _ Hn; now elim (Hn reason));
    try (intros Hw; discriminate Hw).
Qed.

(** X11: the handler dereferences a null pointer exactly when discovery
    finds the notify characteristic without its configuration descriptor;
    every other callback returns. *)
Theorem handler_fails_iff (env : Env) (event : Event) (s : Session) :
  gattc_event_handler env event s = None <->
  event = ESP_GATTC_SEARCH_CMPL_EVT /\
  exists chara, notify_chara env = Some chara /\ notify_descriptor chara = None.
Proof.
  split.
  - intros H. destruct event; handler_cases H.
    split; [reflexivity|]. eexists; split; [reflexivity | assumption].
  - intros [-> [chara [Hc Hd]]].
    cbv [gattc_event_handler seq search_notify_chara].
    rewrite Hc, Hd. reflexivity.
Qed.

(** X12: discovery stores the handle of each characteristic it finds and
    leaves the stored handle alone when the characteristic is missing; it
    changes nothing else and writes no command. *)
Theorem discovery_result (env : Env) (s s' : Session) (trace : list Effect) :
  gattc_event_handler env ESP_GATTC_SEARCH_CMPL_EVT s = Some (s', trace) ->
  notify_char_handle_ s' =
    match notify_chara env with
    | Some chara => handle chara
    | None => notify_char_handle_ s
    end /\
  write_char_handle_ s' =
    match write_chara env with
    | Some chara => handle chara
    | None => write_char_handle_ s
    end /\
  node_state s' = node_state s /\
  has_mtu_change_ s' = has_mtu_change_ s /\
  message_ s' = message_ s /\
  Monitor.writes_issued trace = 0%nat.
Proof.
  intros H. handler_cases H; injection H as <- <-; repeat split.
Qed.

Lemma set_time_buffer_not_key (local : ESPTime) :
  String.eqb (set_time_buffer local) COMMAND_SET_USER_KEY = false.
Proof.
  apply String.eqb_neq. unfold set_time_buffer. simpl. intros H.
  inversion H.
Qed.

Lemma write_ack_after_key (env : Env) (s : Session) :
  Message.raw_command (message_ s) = "02C001" ->
  gattc_event_handler env ESP_GATTC_WRITE_CHAR_EVT s =
    send_command (time_now env 1%nat) (tv_usec env)
      (set_time_buffer (time_now env 0%nat)) s.
Proof.
  intros Hc. unfold gattc_event_handler, read. rewrite Hc. reflexivity.
Qed.

Lemma write_ack_after_set_time (env : Env) (local : ESPTime) (s : Session) :
  Message.raw_command (message_ s) = set_time_buffer local ->
  gattc_event_handler env ESP_GATTC_WRITE_CHAR_EVT s =
    Some (set_node_state ESTABLISHED s, []).
Proof.
  intros Hc. unfold gattc_event_handler, read.
  rewrite Hc, set_time_buffer_not_key, found_at_0_find.
  unfold set_time_buffer. now rewrite prefix_app.
Qed.

(** X13: once the set-user-key command has been acknowledged the machine
    writes the set-time command (the set-time buffer followed by the
    timestamp) and remembers the buffer; the acknowledgement of that write
    then makes the session [ESTABLISHED], whatever the clock showed. *)
Theorem set_user_key_ack_chain (env env' : Env) (s : Session) :
  Message.raw_command (message_ s) = "02C001" ->
  let buffer := set_time_buffer (time_now env 0%nat) in
  let raw := make_raw_command (tv_usec env) buffer (time_now env 1%nat) in
  let len := Z.of_nat (List.length (encrypt raw)) in
  let s1 := set_message_ {| Message.raw_command := buffer;
                            Message.bytes := encrypt raw;
                            Message.length := len |} s in
  gattc_event_handler env ESP_GATTC_WRITE_CHAR_EVT s =
    Some (s1, [Crypto_encrypt raw; Crypto_decrypt (encrypt raw);
               esp_ble_gattc_write_char (write_char_handle_ s) len (encrypt raw)]) /\
  gattc_event_handler env' ESP_GATTC_WRITE_CHAR_EVT s1 =
    Some (set_node_state ESTABLISHED s1, []).
Proof.
  intros Hc. cbv zeta. split.
  - rewrite write_ack_after_key by exact Hc. apply send_command_eq.
  - now apply (write_ack_after_set_time env' (time_now env 0%nat)).
Qed.

(** [disconnect] asks the transport to disconnect and sets [IDLE]
    without clearing the write handle or the MTU flag and without calling
    [on_disconnected]; the disconnect event that follows ends in the same
    session as the event alone would. *)
Lemma disconnect_then_event (env : Env) (reason : Z) (s : Session) :
  disconnect s = Some (set_node_state IDLE s, [parent_disconnect]) /\
  (disconnect ;; gattc_event_handler env (ESP_GATTC_DISCONNECT_EVT reason)) s =
    option_map (fun r => (fst r, parent_disconnect :: snd r))
      (gattc_event_handler env (ESP_GATTC_DISCONNECT_EVT reason) s).
Proof. split; reflexivity. Qed.

Ltac monitor_step :=
  cbn [Monitor.single_outstanding Monitor.issue Monitor.acknowledge
       Monitor.is_write app Nat.eqb Nat.pred].

Lemma run_cons (env : Env) (event : Event) (rest : list (Env * Event))
    (s : Session) :
  run ((env, event) :: rest) s =
    match gattc_event_handler env event s with
    | Some (s1, t1) =>
        match run rest s1 with
        | Some (s2, t2) => Some (s2, (t1 ++ t2)%list)
        | None => None
        end
    | None => None
    end.
Proof. reflexivity. Qed.

(** X14: the handshake in the order the device drives it.  From a fresh
    session, when discovery finds both characteristics (the write handle
    not 0) and the notify descriptor, the events discovery complete,
    subscription confirmed, MTU result 512, write acknowledged, prompt
    notified, write acknowledged, write acknowledged end in [ESTABLISHED].
    The machine has then subscribed, asked for the MTU once, and written the
    user query, the set-user-key command and the set-time command, in that
    order and never with a write pending. *)
Theorem handshake_establishes (e1 e2 e3 e4 e5 e6 e7 : Env)
    (nc wc : Characteristic) (d : Z) (data : list byte) :
  notify_chara e1 = Some nc -> notify_descriptor nc = Some d ->
  write_chara e1 = Some wc -> handle wc <> 0 ->
  String.prefix "0cc0060505" (decrypt data) = true ->
  let steps :=
    [(e1, ESP_GATTC_SEARCH_CMPL_EVT); (e2, ESP_GATTC_REG_FOR_NOTIFY_EVT);
     (e3, ESP_GATTC_CFG_MTU_EVT 512); (e4, ESP_GATTC_WRITE_CHAR_EVT);
     (e5, ESP_GATTC_NOTIFY_EVT (handle nc) data);
     (e6, ESP_GATTC_WRITE_CHAR_EVT); (e7, ESP_GATTC_WRITE_CHAR_EVT)] in
  let query := make_raw_command (tv_usec e3) "02C005" (time_now e3 0%nat) in
  let key := make_raw_command (tv_usec e5) "02C001" (time_now e5 0%nat) in
  let set_time :=
    make_raw_command (tv_usec e6) (set_time_buffer (time_now e6 0%nat))
      (time_now e6 1%nat) in
  let send raw :=
    [Crypto_encrypt raw; Crypto_decrypt (encrypt raw);
     esp_ble_gattc_write_char (handle wc)
       (Z.of_nat (List.length (encrypt raw))) (encrypt raw)] in
  exists s' trace,
    run steps initial = Some (s', trace) /\
    node_state s' = ESTABLISHED /\
    trace =
      ([esp_ble_gattc_register_for_notify (handle nc);
        esp_ble_gattc_write_char_descr d [x01; x00]%byte] ++
       (if negb (Z.land (properties wc) ESP_GATT_CHAR_PROP_BIT_NOTIFY =? 0)
        then [esp_ble_gattc_register_for_notify (handle wc)] else []) ++
       [esp_ble_gatt_set_local_mtu 512; esp_ble_gattc_send_mtu_req] ++
       send query ++ [Crypto_decrypt data] ++ send key ++ send set_time)%list /\
    Monitor.single_outstanding steps initial 0 = true.
Proof.
  intros Hn Hd Hw Hh Hp. cbv zeta.
  set (query := make_raw_command (tv_usec e3) "02C005" (time_now e3 0%nat)).
  set (key := make_raw_command (tv_usec e5) "02C001" (time_now e5 0%nat)).
  set (buffer := set_time_buffer (time_now e6 0%nat)).
  set (set_time := make_raw_command (tv_usec e6) buffer (time_now e6 1%nat)).
  set (bit := negb (Z.land (properties wc) ESP_GATT_CHAR_PROP_BIT_NOTIFY =? 0)).
  set (msg := fun command raw =>
         {| Message.raw_command := command; Message.bytes := encrypt raw;
            Message.length := Z.of_nat (List.length (encrypt raw)) |}).
  set (s1 := set_write_char_handle_ (handle wc)
               (set_notify_char_handle_ (handle nc) initial)).
  set (s3 := set_message_ (msg "02C005" query) (set_has_mtu_change_ true s1)).
  set (s5 := set_message_ (msg "02C001" key) s3).
  set (s6 := set_message_ (msg buffer set_time) s5).
  assert (E1 : gattc_event_handler e1 ESP_GATTC_SEARCH_CMPL_EVT initial =
               Some (s1, ([esp_ble_gattc_register_for_notify (handle nc);
                           esp_ble_gattc_write_char_descr d [x01; x00]%byte] ++
                          (if bit then [esp_ble_gattc_register_for_notify (handle wc)]
                           else []))%list)).
  { cbv [gattc_event_handler seq search_notify_chara search_write_chara
         update call skip].
    rewrite Hn, Hd, Hw. fold bit. now destruct bit. }
  assert (E2 : gattc_event_handler e2 ESP_GATTC_REG_FOR_NOTIFY_EVT s1 =
               Some (s1, [esp_ble_gatt_set_local_mtu 512; esp_ble_gattc_send_mtu_req]))
    by reflexivity.
  assert (E3 : gattc_event_handler e3 (ESP_GATTC_CFG_MTU_EVT 512) s1 =
               Some (s3, [Crypto_encrypt query; Crypto_decrypt (encrypt query);
                          esp_ble_gattc_write_char (handle wc)
                            (Z.of_nat (List.length (encrypt query)))
                            (encrypt query)])).
  { cbv [gattc_event_handler seq update read].
    cbn [Z.eqb WANTED_MTU Pos.eqb write_char_handle_ set_has_mtu_change_ s1
         set_write_char_handle_].
    apply Z.eqb_neq in Hh. rewrite Hh. cbn [negb].
    rewrite send_command_eq. reflexivity. }
  assert (E4 : gattc_event_handler e4 ESP_GATTC_WRITE_CHAR_EVT s3 = Some (s3, []))
    by reflexivity.
  assert (E5 : gattc_event_handler e5 (ESP_GATTC_NOTIFY_EVT (handle nc) data) s3 =
               Some (s5, Crypto_decrypt data ::
                         [Crypto_encrypt key; Crypto_decrypt (encrypt key);
                          esp_ble_gattc_write_char (handle wc)
                            (Z.of_nat (List.length (encrypt key))) (encrypt key)])).
  { unfold gattc_event_handler, read.
    change (notify_char_handle_ s3) with (handle nc).
    rewrite Z.eqb_refl. cbn [negb].
    rewrite found_at_0_find. unfold decode_value.
    change NOTIFY_MESSAGE_PHONE_USER with "0cc0060505". rewrite Hp.
    reflexivity. }
  assert (E6 : gattc_event_handler e6 ESP_GATTC_WRITE_CHAR_EVT s5 =
               Some (s6, [Crypto_encrypt set_time; Crypto_decrypt (encrypt set_time);
                          esp_ble_gattc_write_char (handle wc)
                            (Z.of_nat (List.length (encrypt set_time)))
                            (encrypt set_time)])).
  { rewrite write_ack_after_key by reflexivity. apply send_command_eq. }
  assert (E7 : gattc_event_handler e7 ESP_GATTC_WRITE_CHAR_EVT s6 =
               Some (set_node_state ESTABLISHED s6, []))
    by now apply (write_ack_after_set_time e7 (time_now e6 0%nat)).
  exists (set_node_state ESTABLISHED s6). eexists. split; [|split; [|split]].
  - rewrite run_cons, E1; cbv beta iota. rewrite run_cons, E2; cbv beta iota.
    rewrite run_cons, E3; cbv beta iota. rewrite run_cons, E4; cbv beta iota.
    rewrite run_cons, E5; cbv beta iota. rewrite run_cons, E6; cbv beta iota.
    rewrite run_cons, E7; cbv beta iota. cbn [run skip]. reflexivity.
  - reflexivity.
  - cbn [app]. now destruct bit.
  - clearbody bit. cbn [Monitor.single_outstanding].
    destruct bit; rewrite E1; monitor_step; rewrite E2; monitor_step;
      rewrite E3; monitor_step; rewrite E4; monitor_step;
      rewrite E5; monitor_step; rewrite E6; monitor_step;
      rewrite E7; reflexivity.
Qed.

(** One callback keeps [before_prompt] unless it is a prompt
    notification. *)
Lemma before_prompt_step (env : Env) (event : Event) (s s' : Session)
    (trace : list Effect) :
  Observe.before_prompt s ->
  Observe.is_prompt_notification (env, event) = false ->
  gattc_event_handler env event s = Some (s', trace) ->
  Observe.before_prompt s'.
Proof.
  unfold Observe.before_prompt, Observe.is_prompt_notification.
  intros [Hn Hr] Hp H. destruct event; cbn [snd] in Hp.
  - handler_cases H; injection H as <- <-; auto.
  - handler_cases H; injection H as <- <-. split; [discriminate | exact Hr].
  - handler_cases H; injection H as <- <-; auto.
  - handler_cases H; injection H as <- <-; cbn; auto.
  - unfold gattc_event_handler, read in H.
    rewrite found_at_0_find, Hp in H.
    destruct (negb (handle0 =? notify_char_handle_ s));
      cbv [skip seq call] in H; injection H as <- <-; auto.
  - handler_cases H; injection H as <- <-; cbn; auto.
  - unfold gattc_event_handler, read in H.
    destruct Hr as [Hr | Hr]; rewrite Hr in H;
      cbv in H; injection H as <- <-; auto.
  - handler_cases H; injection H as <- <-; auto.
Qed.

(** X15: without the device's phone-user prompt the session is never
    established.  Over any run from the fresh session in which no
    notification decrypts to a text beginning with "0cc0060505", the state
    is not [ESTABLISHED] at the end and the last-sent command is none or the
    user query: neither the set-user-key nor the set-time command has been
    sent. *)
Theorem no_prompt_no_session (steps : list (Env * Event)) (s' : Session)
    (trace : list Effect) :
  existsb Observe.is_prompt_notification steps = false ->
  run steps initial = Some (s', trace) ->
  node_state s' <> ESTABLISHED /\
  (Message.raw_command (message_ s') = "" \/
   Message.raw_command (message_ s') = "02C005").
Proof.
  assert (I0 : Observe.before_prompt initial)
    by (split; [discriminate | left; reflexivity]).
  revert I0. generalize initial as s. revert s' trace.
  induction steps as [|[env event] rest IH]; intros s' trace s Hs Hp H.
  - injection H as <- <-. exact Hs.
  - cbn [existsb] in Hp. apply orb_false_iff in Hp. destruct Hp as [Hp Hrest].
    rewrite run_cons in H.
    destruct (gattc_event_handler env event s) as [[s1 t1]|] eqn:E1;
      [|discriminate H].
    destruct (run rest s1) as [[s2 t2]|] eqn:E2; [|discriminate H].
    injection H as <- <-.
    apply (IH s2 t2 s1); [|exact Hrest|exact E2].
    exact (before_prompt_step env event s s1 t1 Hs Hp E1).
Qed.

Lemma on_disconnected_step (env : Env) (event : Event) (s s' : Session)
    (trace : list Effect) :
  gattc_event_handler env event s = Some (s', trace) ->
  List.length (filter Observe.is_on_disconnected trace) =
    if Observe.is_disconnect_event (env, event) then 1%nat else 0%nat.
Proof.
  intros H. destruct event; handler_cases H; injection H as <- <-; reflexivity.
Qed.

(** X16: over any run, [on_disconnected] is called once for each disconnect
    event and at no other time. *)
Theorem on_disconnected_per_event (steps : list (Env * Event)) :
  forall (s s' : Session) (trace : list Effect),
    run steps s = Some (s', trace) ->
    List.length (filter Observe.is_on_disconnected trace) =
    List.length (filter Observe.is_disconnect_event steps).
Proof.
  induction steps as [|[env event] rest IH]; intros s s' trace H.
  - injection H as <- <-. reflexivity.
  - rewrite run_cons in H.
    destruct (gattc_event_handler env event s) as [[s1 t1]|] eqn:E1;
      [|discriminate H].
    destruct (run rest s1) as [[s2 t2]|] eqn:E2; [|discriminate H].
    injection H as <- <-.
    rewrite filter_app, List.length_app.
    rewrite (on_disconnected_step _ _ _ _ _ E1), (IH _ _ _ E2).
    cbn [filter]. now destruct (Observe.is_disconnect_event (env, event)).
Qed.

End CommMore.

(** ** The further properties at concrete inputs *)

Section RunsMore.

Lemma writes_use_stored_handle_witness :
  exists s' trace,
    @gattc_event_handler Plain.plain Plain.env0 (ESP_GATTC_CFG_MTU_EVT 512)
      Plain.discovered = Some (s', trace) /\
    40 = write_char_handle_ Plain.discovered /\
    @encrypt Plain.plain "02C00518030f0d072a0007" = Message.bytes (message_ s') /\
    22 = Message.length (message_ s').
Proof.
  eexists. eexists.
  assert (H : @gattc_event_handler Plain.plain Plain.env0
                (ESP_GATTC_CFG_MTU_EVT 512) Plain.discovered = Some (_, _))
    by (lazy; reflexivity).
  refine (conj H (@writes_use_stored_handle Plain.plain _ _ _ _ _ 40 22
                    (@encrypt Plain.plain "02C00518030f0d072a0007") H _)).
  right; right; left; reflexivity.
Defined.



Lemma session_frame_witness :
  exists s' trace,
    @gattc_event_handler Plain.plain Plain.env0
      (ESP_GATTC_NOTIFY_EVT 42 Plain.telemetry) Plain.discovered = Some (s', trace) /\
    notify_char_handle_ s' = 42 /\ write_char_handle_ s' = 40 /\
    message_ s' = Message.empty.
Proof.
  eexists. eexists.
  assert (H : @gattc_event_handler Plain.plain Plain.env0
                (ESP_GATTC_NOTIFY_EVT 42 Plain.telemetry) Plain.discovered =
              Some (_, _)) by (lazy; reflexivity).
  destruct (@session_frame Plain.plain _ _ _ _ _ H) as (N & W & M).
  refine (conj H (conj (N _) (conj (W _ _) (M eq_refl)))).
  - discriminate.
  - discriminate.
  - discriminate.
Defined.

Lemma discovery_result_witness :
  exists s' trace,
    @gattc_event_handler Plain.plain Plain.env0 ESP_GATTC_SEARCH_CMPL_EVT initial =
      Some (s', trace) /\
    notify_char_handle_ s' = 42 /\ write_char_handle_ s' = 40.
Proof.
  eexists. eexists.
  assert (H : @gattc_event_handler Plain.plain Plain.env0
                ESP_GATTC_SEARCH_CMPL_EVT initial = Some (_, _)) by (lazy; reflexivity).
  destruct (@discovery_result Plain.plain _ _ _ _ H) as (N & W & _).
  exact (conj H (conj N W)).
Defined.

Lemma set_user_key_ack_chain_witness :
  Plain.final_state
    (@run Plain.plain
       [(Plain.env0, ESP_GATTC_WRITE_CHAR_EVT); (Plain.env0, ESP_GATTC_WRITE_CHAR_EVT)]
       (set_message_ {| Message.raw_command := "02C001";
                        Message.bytes := []; Message.length := 0 |}
          Plain.discovered)) = Some ESTABLISHED.
Proof.
  destruct (@set_user_key_ack_chain Plain.plain Plain.env0 Plain.env0
              (set_message_ {| Message.raw_command := "02C001";
                               Message.bytes := []; Message.length := 0 |}
                 Plain.discovered) eq_refl) as [A B].
  rewrite run_cons, A. cbv beta iota. rewrite run_cons, B. reflexivity.
Defined.

Lemma handshake_establishes_witness :
  Plain.final_state (Plain.run_plain Plain.handshake initial) = Some ESTABLISHED.
Proof.
  assert (Hh : handle Plain.write_c <> 0) by discriminate.
  destruct (@handshake_establishes Plain.plain
              Plain.env0 Plain.env0 Plain.env0 Plain.env0 Plain.env0 Plain.env0
              Plain.env0 Plain.notify_c Plain.write_c 43 Plain.phone_user_prompt
              eq_refl eq_refl eq_refl Hh eq_refl) as (s' & trace & R & St & _).
  unfold Plain.run_plain, Plain.handshake.
  change (handle Plain.notify_c) with 42 in R.
  rewrite R. cbn [Plain.final_state option_map fst]. now rewrite St.
Defined.

Lemma no_prompt_no_session_witness :
  exists s' trace,
    @run Plain.plain Plain.until_disconnect initial = Some (s', trace) /\
    node_state s' <> ESTABLISHED.
Proof.
  eexists. eexists.
  assert (Hp : existsb (@Observe.is_prompt_notification Plain.plain)
                 Plain.until_disconnect = false) by reflexivity.
  assert (H : @run Plain.plain Plain.until_disconnect initial = Some (_, _))
    by (lazy; reflexivity).
  exact (conj H (proj1 (@no_prompt_no_session Plain.plain _ _ _ Hp H))).
Defined.

Lemma on_disconnected_per_event_witness :
  exists s' trace,
    @run Plain.plain Plain.until_disconnect initial = Some (s', trace) /\
    List.length (filter Observe.is_on_disconnected trace) = 1%nat.
Proof.
  eexists. eexists.
  assert (H : @run Plain.plain Plain.until_disconnect initial = Some (_, _))
    by (lazy; reflexivity).
  exact (conj H (@on_disconnected_per_event Plain.plain _ _ _ _ H)).
Defined.

End RunsMore.
